(** * craft-parts: package staging (deb.py) and overlay layer chains

    A shallow embedding of [craft_parts/packages/deb.py] and of the overlay
    manager exercised by [tests/unit/overlays/test_overlay_manager.py],
    together with the properties stated for them in the specification.

    Conventions of the embedding:
    - Python [str] is [string]; the characters are taken to be ASCII, so
      that [str.split()] separates on the ASCII white space characters.
    - Python [set] of names is [gset string]; [dict] is [gmap].
    - A method that talks to the outside world (apt cache, subprocesses,
      the file system) is a computation in the monad [M]: it yields the
      list of events it performed and either a value or a raised
      exception.  The answers of the outside world come from a [Host]
      record of oracles. *)

From stdpp Require Import gmap strings list sorting pretty.
From Stdlib Require Import Ascii String.

Open Scope string_scope.
Open Scope nat_scope.
Open Scope list_scope.
Open Scope stdpp_scope.

(** ** Python values and built-ins used by the sources *)
Module Py.

(** Exceptions raised (or propagated) by the embedded code. *)
Inductive exn :=
| IndexError
| RuntimeError (msg : string)
| OSError (path : string)
| PackageNotFound (package_name : string)
| BuildPackageNotFound (package_name : string)
| PackageListRefreshError (msg : string)
| BuildPackagesNotInstalled (packages : list string)
| UnpackError (path : string).

(** Outcome of a call: a returned value or a raised exception. *)
Inductive result (A : Type) :=
| Ok (a : A)
| Raise (e : exn).
Arguments Ok {A} a.
Arguments Raise {A} e.

Definition rbind {A B} (r : result A) (k : A → result B) : result B :=
  match r with
  | Ok a => k a
  | Raise e => Raise e
  end.

(** [c.isspace()] for an ASCII character: TAB, LF, VT, FF, CR, the four
    separators FS GS RS US, and the blank. *)
Definition isspace (c : ascii) : bool :=
  let n := nat_of_ascii c in
  ((9 <=? n)%nat && (n <=? 13)%nat) || ((28 <=? n)%nat && (n <=? 32)%nat).

(** [s.split()]: the maximal runs of non white space characters of [s],
    in order.  [cur] is the run being read. *)
Fixpoint split_go (cur : string) (s : string) : list string :=
  match s with
  | EmptyString => if String.eqb cur "" then [] else [cur]
  | String c s' =>
      if isspace c
      then (if String.eqb cur "" then split_go "" s'
            else cur :: split_go "" s')
      else split_go (cur +:+ String c "") s'
  end.

Definition split (s : string) : list string := split_go "" s.

(** The line terminator. *)
Definition LF : string := String (ascii_of_nat 10) "".

(** [s.startswith(p)] *)
Definition startswith (s p : string) : bool := String.prefix p s.

(** [l[i]] on a list: raises [IndexError] out of range. *)
Definition getitem {A} (l : list A) (i : nat) : result A :=
  match l !! i with
  | Some a => Ok a
  | None => Raise IndexError
  end.

(** [sorted(l)] on a list of [str]: ascending in the code point order.
    Two strings that compare equal are the same string, so the result
    does not depend on the sorting algorithm. *)
Definition sorted (l : list string) : list string :=
  merge_sort String.le l.

(** Order of Python on the tuples [(name, version)]: lexicographic. *)
Definition tuple_le (p q : string * string) : Prop :=
  (p.1 ≠ q.1 ∧ String.le p.1 q.1) ∨ (p.1 = q.1 ∧ String.le p.2 q.2).

Global Instance tuple_le_dec p q : Decision (tuple_le p q).
Proof. unfold tuple_le. apply _. Defined.

(** [sorted(l)] on a list of such tuples. *)
Definition sorted_tuples (l : list (string * string)) : list (string * string) :=
  merge_sort tuple_le l.

(** [sep.join(l)] *)
Definition join (sep : string) (l : list string) : string :=
  String.concat sep l.

(** [s.endswith(p)] *)
Definition endswith (s p : string) : bool :=
  String.prefix (String.rev p) (String.rev s).

(** [pathlib]: [a / b] for a relative [b]. *)
Definition path_div (a b : string) : string := a +:+ "/" +:+ b.

(** Splits [s] at its first ["/"], if there is one. *)
Fixpoint break_slash (s : string) : string * option string :=
  match s with
  | EmptyString => ("", None)
  | String c s' =>
      if Ascii.eqb c "/"%char then ("", Some s')
      else let r := break_slash s' in (String c r.1, r.2)
  end.

(** [pathlib]: [p.name], the final component of [p]. *)
Definition path_name (p : string) : string :=
  String.rev (break_slash (String.rev p)).1.

(** [pathlib]: [p.parent]. *)
Definition path_parent (p : string) : string :=
  match (break_slash (String.rev p)).2 with
  | None => "."
  | Some d => if String.eqb d "" then "/" else String.rev d
  end.

(** A value passed where the source does not fix the type: a [str] or a
    [list] of [str]. *)
Inductive value :=
| Str (s : string)
| StrList (l : list string).

(** [a == b] *)
Definition eqb (a b : value) : bool :=
  match a, b with
  | Str s, Str t => String.eqb s t
  | StrList l, StrList k => bool_decide (l = k)
  | _, _ => false
  end.

(** [a in l] *)
Definition contains (l : list value) (a : value) : bool := existsb (eqb a) l.

(** [s.strip()] *)
Fixpoint lstrip (s : string) : string :=
  match s with
  | EmptyString => ""
  | String c s' => if isspace c then lstrip s' else s
  end.

Definition strip (s : string) : string :=
  String.rev (lstrip (String.rev (lstrip s))).

Global Instance result_ret : MRet result := @Ok.
Global Instance result_bind : MBind result := λ A B k r, rbind r k.

End Py.

(** ** Effects: events, the outside world, and the monad [M] *)
Module Eff.
Import Py.

(** Which apt cache a [with AptCache(...)] block opens: the one of the
    host ([None]) or a stage cache for a target architecture. *)
Definition apt_cfg : Type := option (string * string).

(** What a call does to (or asks from) the outside world. *)
Inductive event :=
| LogDebug (fmt : string) (args : list string)
| LogWarning (fmt : string) (cmd : list string)
| ProcessRun (cmd : list string) (env : list (string * string))
| CheckOutput (cmd : list string)
| AptEnter (cfg : apt_cfg)
| AptExit (cfg : apt_cfg)
| AptGetInstalledVersion (name : string)
| AptMarkPackages (names : gset string)
| AptUnmarkPackages (names : gset string)
| AptGetMarked
| AptFetchArchives (dir : string)
| Mkdir (path : string) (parents exist_ok : bool)
| LinkOrCopy (src dst : string)
| TempDirEnter (dir : string)
| TempDirExit (dir : string)
| MarkOriginStagePackage (dir name : string)
| LinkOrCopyTree (src dst : string)
| Normalize (path : string).

(** The outside world, as the answers it gives.  Each oracle is keyed by
    the arguments of the call: within one run of the embedded methods no
    command is run twice with the same arguments, and the queries are
    read-only. *)
Record Host := {
  (** content of a regular file as the lines [fileinput] yields, each with
      its line terminator; [None] when the path does not exist *)
  read_lines : string → option (list string);
  (** names of the entries of a directory *)
  iterdir : string → list string;
  (** [apt_cache.get_installed_version(name, resolve_virtual_packages=True)] *)
  get_installed_version : string → option string;
  (** [apt_cache.mark_packages(names)]: [Some n] when it raises
      [PackageNotFound(n)] *)
  mark_packages_fails : apt_cfg → gset string → option string;
  (** [apt_cache.get_packages_marked_for_installation()] after marking the
      first set and unmarking the second *)
  get_packages_marked_for_installation :
    apt_cfg → gset string → gset string → list (string * string);
  (** [apt_cache.fetch_archives(dir)]: name, version and downloaded path *)
  fetch_archives :
    apt_cfg → gset string → gset string → string →
    list (string * string * string);
  (** exit status 0 of a command run through [process_run] *)
  process_ok : list string → bool;
  (** standard output of a command run through [subprocess.check_output],
      [None] when it exits with a non-zero status *)
  check_output : list string → option string;
  (** whether [Path.mkdir] succeeds *)
  mkdir_ok : string → bool;
  (** the directory [tempfile.TemporaryDirectory] creates on its [n]-th use *)
  mkdtemp : string → string → nat → string
}.

(** [subprocess.CalledProcessError], only ever caught by the callers. *)
Inductive outcome (A : Type) :=
| Return (a : A)
| Throw (e : exn)
| CalledProcessError (cmd : list string).
Arguments Return {A} a.
Arguments Throw {A} e.
Arguments CalledProcessError {A} cmd.

(** A computation: the events performed, in order, and how it ended. *)
Definition M (A : Type) : Type := list event * outcome A.

Definition ret {A} (a : A) : M A := ([], Return a).
Definition raise {A} (e : exn) : M A := ([], Throw e).
Definition emit (e : event) : M unit := ([e], Return tt).

Definition bind {A B} (c : M A) (k : A → M B) : M B :=
  match c.2 with
  | Return a => (c.1 ++ (k a).1, (k a).2)
  | Throw e => (c.1, Throw e)
  | CalledProcessError cmd => (c.1, CalledProcessError cmd)
  end.

(** [try: c  except subprocess.CalledProcessError as err: h err] *)
Definition try_except {A} (c : M A) (h : list string → M A) : M A :=
  match c.2 with
  | CalledProcessError cmd => (c.1 ++ (h cmd).1, (h cmd).2)
  | _ => c
  end.

(** [try: c  finally: f] (the exit of a [with] block). *)
Definition finally {A} (c : M A) (f : event) : M A := (c.1 ++ [f], c.2).

Definition lift {A} (r : result A) : M A :=
  match r with
  | Ok a => ret a
  | Raise e => raise e
  end.

Definition trace {A} (c : M A) : list event := c.1.
Definition outcome_of {A} (c : M A) : outcome A := c.2.

Global Instance M_ret : MRet M := @ret.
Global Instance M_bind : MBind M := λ A B k c, bind c k.

(** *** The calls into the outside world *)

(** [process_run(command, env=env)] of [deb.py], which forwards to
    [os_utils.process_run]; [env] is [None] when the keyword is not given,
    otherwise the entries set on top of a copy of [os.environ]. *)
Definition process_run (host : Host) (command : list string)
    (env : option (list (string * string))) : M unit :=
  ([ProcessRun command (default [] env)],
   if process_ok host command then Return tt else CalledProcessError command).

(** [subprocess.check_output(command)], decoded. *)
Definition subprocess_check_output (host : Host) (command : list string)
    : M string :=
  ([CheckOutput command],
   match check_output host command with
   | Some out => Return out
   | None => CalledProcessError command
   end).

(** [with AptCache(...) as apt_cache: body] *)
Definition with_AptCache {A} (cfg : apt_cfg) (body : M A) : M A :=
  finally (bind (emit (AptEnter cfg)) (λ _, body)) (AptExit cfg).

Definition apt_get_installed_version (host : Host) (pkg_name : string)
    : M (option string) :=
  ([AptGetInstalledVersion pkg_name], Return (get_installed_version host pkg_name)).

Definition apt_mark_packages (host : Host) (cfg : apt_cfg)
    (names : gset string) : M unit :=
  ([AptMarkPackages names],
   match mark_packages_fails host cfg names with
   | Some n => Throw (PackageNotFound n)
   | None => Return tt
   end).

Definition apt_unmark_packages (names : gset string) : M unit :=
  emit (AptUnmarkPackages names).

Definition apt_get_packages_marked_for_installation (host : Host)
    (cfg : apt_cfg) (marked unmarked : gset string)
    : M (list (string * string)) :=
  ([AptGetMarked],
   Return (get_packages_marked_for_installation host cfg marked unmarked)).

Definition apt_fetch_archives (host : Host) (cfg : apt_cfg)
    (marked unmarked : gset string) (dir : string)
    : M (list (string * string * string)) :=
  ([AptFetchArchives dir], Return (fetch_archives host cfg marked unmarked dir)).

(** [path.mkdir(parents=..., exist_ok=...)] *)
Definition path_mkdir (host : Host) (path : string) (parents exist_ok : bool)
    : M unit :=
  ([Mkdir path parents exist_ok],
   if mkdir_ok host path then Return tt else Throw (OSError path)).

(** [except errors.PackageNotFound as error: h error.package_name] *)
Definition except_PackageNotFound {A} (c : M A) (h : string → M A) : M A :=
  match c.2 with
  | Throw (PackageNotFound n) => (c.1 ++ (h n).1, (h n).2)
  | _ => c
  end.

End Eff.


(** ** craft_parts/packages/deb.py *)
Module Deb.
Import Py Eff.

(** Modelled from the spec: the class [DebPackage] of
    [craft_parts/packages/deb_package.py], which is not among the sources.
    The specification describes a package as a name plus an optional
    pinned version; [deb.py] only reads the attribute [name]. *)
Record DebPackage := {
  name : string;
  version : option string
}.

Definition _DEFAULT_FILTERED_STAGE_PACKAGES : list string :=
  [
    "adduser"; "apt"; "apt-utils"; "base-files"; "base-passwd"; "bash";
    "bsdutils"; "coreutils"; "dash"; "debconf"; "debconf-i18n";
    "debianutils"; "diffutils"; "dmsetup"; "dpkg"; "e2fslibs"; "e2fsprogs";
    "file"; "findutils"; "gcc-4.9-base"; "gcc-5-base"; "gnupg"; "gpgv";
    "grep"; "gzip"; "hostname"; "init"; "initscripts"; "insserv";
    "libacl1"; "libapparmor1"; "libapt"; "libapt-inst1.5";
    "libapt-pkg4.12"; "libattr1"; "libaudit-common"; "libaudit1";
    "libblkid1"; "libbz2-1.0"; "libc-bin"; "libc6"; "libcap2";
    "libcap2-bin"; "libcomerr2"; "libcryptsetup4"; "libdb5.3";
    "libdebconfclient0"; "libdevmapper1.02.1"; "libgcc1"; "libgcrypt20";
    "libgpg-error0"; "libgpm2"; "libkmod2"; "liblocale-gettext-perl";
    "liblzma5"; "libmagic1"; "libmount1"; "libncurses5"; "libncursesw5";
    "libpam-modules"; "libpam-modules-bin"; "libpam-runtime"; "libpam0g";
    "libpcre3"; "libprocps3"; "libreadline6"; "libselinux1";
    "libsemanage-common"; "libsemanage1"; "libsepol1"; "libslang2";
    "libsmartcols1"; "libss2"; "libstdc++6"; "libsystemd0";
    "libtext-charwidth-perl"; "libtext-iconv-perl";
    "libtext-wrapi18n-perl"; "libtinfo5"; "libudev1"; "libusb-0.1-4";
    "libustr-1.0-1"; "libuuid1"; "locales"; "login"; "lsb-base"; "makedev";
    "manpages"; "manpages-dev"; "mawk"; "mount"; "multiarch-support";
    "ncurses-base"; "ncurses-bin"; "passwd"; "perl-base"; "procps";
    "readline-common"; "sed"; "sensible-utils"; "systemd"; "systemd-sysv";
    "sysv-rc"; "sysvinit-utils"; "tar"; "tzdata"; "ubuntu-keyring"; "udev";
    "util-linux"; "zlib1g"
  ].

Definition IGNORE_FILTERS : gmap string (gset string) :=
  {[ "core20" :=
     list_to_set [
      "python3-attr"; "python3-blinker"; "python3-certifi";
      "python3-cffi-backend"; "python3-chardet"; "python3-configobj";
      "python3-cryptography"; "python3-idna"; "python3-importlib-metadata";
      "python3-jinja2"; "python3-json-pointer"; "python3-jsonpatch";
      "python3-jsonschema"; "python3-jwt"; "python3-lib2to3";
      "python3-markupsafe"; "python3-more-itertools"; "python3-netifaces";
      "python3-oauthlib"; "python3-pyrsistent"; "python3-pyudev";
      "python3-requests"; "python3-requests-unixsocket"; "python3-serial";
      "python3-six"; "python3-urllib3"; "python3-urwid"; "python3-yaml";
      "python3-zipp"
     ] ]}.

Definition _get_dpkg_list_path (base : string) : string :=
  "/snap/" +:+ base +:+ "/current/usr/share/snappy/dpkg.list".

Section Repository.

(** [DebPackage.from_unparsed] (deb_package.py) and [get_pkg_name_parts]
    (base.py) are imported by [deb.py] from modules that are not among the
    sources: the development is parametric in them. *)
Variable from_unparsed : string → DebPackage.
Variable get_pkg_name_parts : string → string * option string.

(** The [for line in file] loop of [get_packages_in_base]. *)
Fixpoint get_packages_in_base_loop
    (file : list string) (package_list : list DebPackage)
    : result (list DebPackage) :=
  match file with
  | [] => Ok package_list
  | line :: file =>
      if negb (startswith line "ii ") then
        get_packages_in_base_loop file package_list
      else
        field ← getitem (split line) 1;
        let package := from_unparsed field in
        get_packages_in_base_loop file (package_list ++ [package])
  end.

Definition get_packages_in_base (host : Host) (base : string)
    : result (list DebPackage) :=
  if contains [Str "core"; Str "core16"; Str "core18"] (Str base) then
    Ok (from_unparsed <$> _DEFAULT_FILTERED_STAGE_PACKAGES)
  else
    let base_package_list_path := _get_dpkg_list_path base in
    match read_lines host base_package_list_path with
    | None => Ok []
    | Some file => get_packages_in_base_loop file []
    end.

Definition _get_filtered_stage_package_names
    (host : Host) (base : string) (package_list : list DebPackage)
    : result (gset string) :=
  in_base ← get_packages_in_base host base;
  let manifest_packages := name <$> in_base in
  let stage_packages := name <$> package_list in
  Ok (list_to_set manifest_packages ∖ list_to_set stage_packages
        ∖ default ∅ (IGNORE_FILTERS !! base)).

Definition get_packages_for_source_type (source_type : value) : gset string :=
  if eqb source_type (Str "bzr") then {[ "bzr" ]}
  else if eqb source_type (Str "git") then {[ "git" ]}
  else if eqb source_type (Str "tar") then {[ "tar" ]}
  else if contains [Str "hg"; Str "mercurial"] source_type then
    {[ "mercurial" ]}
  else if eqb source_type (StrList ["svn"; "subversion"]) then
    {[ "subversion" ]}
  else if eqb source_type (Str "rpm2cpio") then {[ "rpm2cpio" ]}
  else if eqb source_type (Str "7zip") then {[ "p7zip-full" ]}
  else ∅.

(** *** class Ubuntu *)

Definition refresh_build_packages_list (host : Host) : M unit :=
  try_except
    (let cmd := ["apt-get"; "update"] in
     emit (LogDebug "Executing: %s" cmd);;
     process_run host cmd None)
    (λ _, raise (PackageListRefreshError "failed to run apt update")).

(** The [for package in package_names] loop of
    [_check_if_all_packages_installed], up to its [return]. *)
Fixpoint _check_if_all_packages_installed_loop
    (host : Host) (package_names : list string) : M bool :=
  match package_names with
  | [] => mret true
  | package :: package_names =>
      let '(pkg_name, pkg_version) := get_pkg_name_parts package in
      installed_version ← apt_get_installed_version host pkg_name;
      match installed_version, pkg_version with
      | None, _ => mret false
      | Some iv, Some pv =>
          if negb (String.eqb iv pv) then mret false
          else _check_if_all_packages_installed_loop host package_names
      | Some _, None =>
          _check_if_all_packages_installed_loop host package_names
      end
  end.

Definition _check_if_all_packages_installed
    (host : Host) (package_names : list string) : M bool :=
  with_AptCache None (_check_if_all_packages_installed_loop host package_names).

Definition _get_packages_marked_for_installation
    (host : Host) (package_names : list string) : M (list (string * string)) :=
  with_AptCache None
    (except_PackageNotFound
       (apt_mark_packages host None (list_to_set package_names))
       (λ package_name, raise (BuildPackageNotFound package_name));;
     apt_get_packages_marked_for_installation host None
       (list_to_set package_names) ∅).

Definition _install_packages (host : Host) (package_names : list string)
    : M unit :=
  emit (LogDebug "Installing build dependencies: %s" [join " " package_names]);;
  let env :=
    Some [("DEBIAN_FRONTEND", "noninteractive");
          ("DEBCONF_NONINTERACTIVE_SEEN", "true");
          ("DEBIAN_PRIORITY", "critical")] in
  let apt_command :=
    ["apt-get"; "--no-install-recommends"; "-y"; "-oDpkg::Use-Pty=0";
     "--allow-downgrades"; "install"] in
  try_except
    (process_run host (apt_command ++ package_names) env)
    (λ _, raise (BuildPackagesNotInstalled package_names));;
  let versionless_names := (λ p, (get_pkg_name_parts p).1) <$> package_names in
  try_except
    (process_run host (["apt-mark"; "auto"] ++ versionless_names) env)
    (λ err,
       emit (LogWarning "Impossible to mark packages as auto-installed: %s" err)).

(** [f"{name}={version}"] *)
Definition name_version (p : string * string) : string :=
  p.1 +:+ "=" +:+ p.2.

Definition install_build_packages
    (host : Host) (package_names : list string) (list_only : bool)
    : M (list string) :=
  match package_names with
  | [] => mret []
  | _ :: _ =>
      let install_required := false in
      let package_names := sorted package_names in
      emit (LogDebug "Requested build-packages: %s" package_names);;
      all_installed ← _check_if_all_packages_installed host package_names;
      let install_required :=
        if negb all_installed then true else install_required in
      marked_packages ← _get_packages_marked_for_installation host package_names;
      let packages := name_version <$> sorted_tuples marked_packages in
      (if negb list_only then
         if install_required then _install_packages host packages
         else emit (LogDebug "Requested build-packages already installed: %s"
                      packages)
       else mret tt);;
      mret packages
  end.

Definition get_cache_dirs (cache_dir : string) : string * string :=
  let stage_cache_dir := path_div cache_dir "stage-packages" in
  let deb_cache_dir := path_div cache_dir "download" in
  (stage_cache_dir, deb_cache_dir).

(** The [for ... in apt_cache.fetch_archives(deb_cache_dir)] loop of
    [fetch_stage_packages]; [installed] is the set being filled. *)
Fixpoint fetch_stage_packages_loop
    (stage_packages_path : string)
    (archives : list (string * string * string)) (installed : gset string)
    : M (gset string) :=
  match archives with
  | [] => mret installed
  | (pkg_name, pkg_version, dl_path) :: archives =>
      emit (LogDebug "Extracting stage package: %s" [pkg_name]);;
      let installed := installed ∪ {[ name_version (pkg_name, pkg_version) ]} in
      emit (LinkOrCopy dl_path (path_div stage_packages_path (path_name dl_path)));;
      fetch_stage_packages_loop stage_packages_path archives installed
  end.

Definition fetch_stage_packages
    (host : Host) (cache_dir : string) (package_names : list string)
    (stage_packages_path : string) (base : string) (target_arch : string)
    (list_only : bool) : M (list string) :=
  emit (LogDebug "Requested stage-packages: %s" (sorted package_names));;
  match package_names with
  | [] => mret []
  | _ :: _ =>
      filtered_names ←
        lift (_get_filtered_stage_package_names host base
                (from_unparsed <$> package_names));
      (if negb list_only then path_mkdir host stage_packages_path false true
       else mret tt);;
      let '(stage_cache_dir, deb_cache_dir) := get_cache_dirs cache_dir in
      path_mkdir host deb_cache_dir true true;;
      let installed : gset string := ∅ in
      let cfg : apt_cfg := Some (stage_cache_dir, target_arch) in
      installed ←
        with_AptCache cfg
          (apt_mark_packages host cfg (list_to_set package_names);;
           apt_unmark_packages filtered_names;;
           if list_only then
             marked_packages ←
               apt_get_packages_marked_for_installation host cfg
                 (list_to_set package_names) filtered_names;
             mret (list_to_set (name_version <$> sorted_tuples marked_packages))
           else
             archives ←
               apt_fetch_archives host cfg
                 (list_to_set package_names) filtered_names deb_cache_dir;
             fetch_stage_packages_loop stage_packages_path archives installed);
      mret (sorted (elements installed))
  end.

Definition _extract_deb_name_version (host : Host) (deb_path : string)
    : M string :=
  output ←
    try_except
      (subprocess_check_output host
         ["dpkg-deb"; "--show"; "--showformat=${Package}=${Version}"; deb_path])
      (λ _, raise (UnpackError deb_path));
  mret (strip output).

Definition _extract_deb (host : Host) (deb_path extract_dir : string)
    : M unit :=
  try_except
    (process_run host ["dpkg-deb"; "--extract"; deb_path; extract_dir] None)
    (λ _, raise (UnpackError deb_path)).

(** [stage_packages_path.glob("*.deb")] *)
Definition glob_deb (host : Host) (stage_packages_path : string) : list string :=
  path_div stage_packages_path <$>
    List.filter (λ n, endswith n ".deb") (iterdir host stage_packages_path).

(** The [for pkg_path in ...glob("*.deb")] loop of [unpack_stage_packages];
    it yields the last value bound to [pkg_path].  [n] counts the temporary
    directories created so far. *)
Fixpoint unpack_stage_packages_loop
    (host : Host) (install_path : string)
    (debs : list string) (n : nat) (pkg_path : option string)
    : M (option string) :=
  match debs with
  | [] => mret pkg_path
  | deb :: debs =>
      let pkg_path := Some deb in
      let extract_dir := mkdtemp host "deb-extract" (path_parent install_path) n in
      finally
        (emit (TempDirEnter extract_dir);;
         _extract_deb host deb extract_dir;;
         marked_name ← _extract_deb_name_version host deb;
         emit (MarkOriginStagePackage extract_dir marked_name);;
         emit (LinkOrCopyTree extract_dir install_path))
        (TempDirExit extract_dir);;
      unpack_stage_packages_loop host install_path debs (S n) pkg_path
  end.

Definition unpack_stage_packages
    (host : Host) (stage_packages_path install_path : string) : M unit :=
  let pkg_path := None in
  pkg_path ←
    unpack_stage_packages_loop host install_path
      (glob_deb host stage_packages_path) 0 pkg_path;
  match pkg_path with
  | Some _ => emit (Normalize install_path)
  | None => mret tt
  end.

End Repository.

(** Modelled from the spec: [get_pkg_name_parts] of
    [craft_parts/packages/base.py], which is not among the sources.  The
    specification gives a package as [name] or [name=version]: the name
    is what precedes the first ["="], the pinned version what follows. *)
Fixpoint spec_get_pkg_name_parts (s : string) : string * option string :=
  match s with
  | EmptyString => ("", None)
  | String c s' =>
      if Ascii.eqb c "="%char then ("", Some s')
      else let r := spec_get_pkg_name_parts s' in (String c r.1, r.2)
  end.

(** Modelled from the spec: [DebPackage.from_unparsed] of
    [craft_parts/packages/deb_package.py], which is not among the sources:
    the package of a [name] or [name=version] string. *)
Definition spec_from_unparsed (s : string) : DebPackage :=
  {| name := (spec_get_pkg_name_parts s).1;
     version := (spec_get_pkg_name_parts s).2 |}.

End Deb.

(** ** craft_parts/overlays, as exercised by test_overlay_manager.py *)
Module Overlay.
Import Py.

(** The calls into [craft_parts.utils.os_utils] that the tests mock. *)
Inductive call :=
| Mount (args : list string)
| Umount (target : string).

(** Modelled from the spec: [OverlayFS] of
    [craft_parts/overlays/overlay_fs.py], which is not among the sources.
    One mountable union view: ordered lower directories (the first has the
    highest precedence), one upper directory, one work directory, and the
    mount state, unmounted or mounted on a target. *)
Record OverlayFS := {
  lower_dirs : list string;
  upper_dir : string;
  work_dir : string;
  mountpoint : option string
}.

(** Modelled from the spec: the mount options of [OverlayFS.mount],
    [lowerdir=<d1>:<d2>:...,upperdir=<upper>,workdir=<work>]. *)
Definition mount_options (fs : OverlayFS) : string :=
  "lowerdir=" +:+ join ":" (lower_dirs fs) +:+
  ",upperdir=" +:+ upper_dir fs +:+ ",workdir=" +:+ work_dir fs.

(** Modelled from the spec: [OverlayFS.mount], missing from the sources.
    It fails if the view is already mounted; otherwise it issues the union
    mount (type "overlay", the target, the options, with the argument
    layout the tests assert) and records the target. *)
Definition OverlayFS_mount (fs : OverlayFS) (target : string)
    : list call * result OverlayFS :=
  match mountpoint fs with
  | Some _ => ([], Raise (RuntimeError "filesystem is already mounted"))
  | None =>
      ([Mount ["overlay"; target; "-toverlay"; "-o" +:+ mount_options fs]],
       Ok {| lower_dirs := lower_dirs fs; upper_dir := upper_dir fs;
             work_dir := work_dir fs; mountpoint := Some target |})
  end.

(** Modelled from the spec: [OverlayFS.unmount], missing from the sources.
    It fails with a state error if the view is not mounted; otherwise it
    issues the unmount and clears the state. *)
Definition OverlayFS_unmount (fs : OverlayFS) : list call * result OverlayFS :=
  match mountpoint fs with
  | None => ([], Raise (RuntimeError "filesystem is not mounted"))
  | Some target =>
      ([Umount target],
       Ok {| lower_dirs := lower_dirs fs; upper_dir := upper_dir fs;
             work_dir := work_dir fs; mountpoint := None |})
  end.

(** Modelled from the spec: a part, known by its name, and the directory
    layout of the working area that the tests assert: the layer of a part
    is [<work>/parts/<name>/layer], the overlay area holds the mount point
    [overlay/overlay], the package cache layer [overlay/packages] and the
    scratch directory [overlay/work]. *)
Record Part := { part_name : string }.

Global Instance Part_eq_dec : EqDecision Part.
Proof. solve_decision. Defined.

(** Modelled from the spec: the part of [ProjectInfo] that the overlay
    manager reads, the working area of the project. *)
Record ProjectInfo := { project_work_dir : string }.

Definition part_layer_dir (info : ProjectInfo) (p : Part) : string :=
  path_div (project_work_dir info) ("parts/" +:+ part_name p +:+ "/layer").
Definition overlay_mount_dir (info : ProjectInfo) : string :=
  path_div (project_work_dir info) "overlay/overlay".
Definition overlay_packages_dir (info : ProjectInfo) : string :=
  path_div (project_work_dir info) "overlay/packages".
Definition overlay_work_dir (info : ProjectInfo) : string :=
  path_div (project_work_dir info) "overlay/work".

(** Modelled from the spec: [OverlayManager] of
    [craft_parts/overlays/overlay_manager.py], missing from the sources.
    It owns the build order of the parts, an optional base layer and one
    lazily created, reused [OverlayFS]. *)
Record OverlayManager := {
  project_info : ProjectInfo;
  part_list : list Part;
  base_layer_dir : option string;
  overlay_fs : option OverlayFS
}.

(** Modelled from the spec: the parts built before [part], in build
    order. *)
Fixpoint parts_before (order : list Part) (part : Part) : list Part :=
  match order with
  | [] => []
  | p :: order => if decide (p = part) then [] else p :: parts_before order part
  end.

(** Modelled from the spec: the lower directories of a mount request:
    the package cache layer if asked for, then the layers of the parts
    built before [part], the most recently built first, then the base. *)
Definition lower_dir_chain (om : OverlayManager) (preceding : list Part)
    (pkg_cache : bool) (base : string) : list string :=
  (if pkg_cache then [overlay_packages_dir (project_info om)] else []) ++
  reverse (part_layer_dir (project_info om) <$> preceding) ++
  [base].

(** Modelled from the spec: the one reused view of the manager,
    reconfigured for a new request; it keeps its mount state. *)
Definition configure_fs (om : OverlayManager) (lower : list string)
    (upper : string) : OverlayFS :=
  {| lower_dirs := lower; upper_dir := upper;
     work_dir := overlay_work_dir (project_info om);
     mountpoint := fs ← overlay_fs om; mountpoint fs |}.

(** Modelled from the spec: the manager after its view was mounted. *)
Definition with_fs (om : OverlayManager) (r : list call * result OverlayFS)
    : list call * result OverlayManager :=
  (r.1,
   fs ← r.2;
   Ok {| project_info := project_info om; part_list := part_list om;
         base_layer_dir := base_layer_dir om; overlay_fs := Some fs |}).

(** Modelled from the spec: [OverlayManager.mount_layer]; the message of
    the state error is the one the test expects. *)
Definition mount_layer (om : OverlayManager) (part : Part) (pkg_cache : bool)
    : list call * result OverlayManager :=
  match base_layer_dir om with
  | None => ([], Raise (RuntimeError "request to mount overlay without a base layer"))
  | Some base =>
      let lower :=
        lower_dir_chain om (parts_before (part_list om) part) pkg_cache base in
      let upper := part_layer_dir (project_info om) part in
      with_fs om
        (OverlayFS_mount (configure_fs om lower upper)
           (overlay_mount_dir (project_info om)))
  end.

(** Modelled from the spec: [OverlayManager.mount_pkg_cache]: the base as
    the lower directory, the package cache layer as the upper one. *)
Definition mount_pkg_cache (om : OverlayManager)
    : list call * result OverlayManager :=
  match base_layer_dir om with
  | None =>
      ([], Raise (RuntimeError
                    "request to mount the overlay package cache without a base layer"))
  | Some base =>
      let lower := lower_dir_chain om [] false base in
      let upper := overlay_packages_dir (project_info om) in
      with_fs om
        (OverlayFS_mount (configure_fs om lower upper)
           (overlay_mount_dir (project_info om)))
  end.

End Overlay.

(** ** The dpkg queries of deb.py and their memoization *)
Module Dpkg.
Import Py Eff.

(** A line boundary of [str.splitlines()] among the ASCII characters:
    LF, VT, FF, CR and the separators FS, GS, RS. *)
Definition is_linebreak (c : ascii) : bool :=
  let n := nat_of_ascii c in
  ((10 <=? n)%nat && (n <=? 13)%nat) || ((28 <=? n)%nat && (n <=? 30)%nat).

(** [s.splitlines()]: the lines of [s] without their terminators; CR LF
    counts as one boundary, and a final terminator opens no empty line. *)
Fixpoint splitlines_go (cur : string) (s : string) : list string :=
  match s with
  | EmptyString => if String.eqb cur "" then [] else [cur]
  | String c s' =>
      if is_linebreak c then
        match s' with
        | String c' s'' =>
            if Ascii.eqb c (ascii_of_nat 13) && Ascii.eqb c' (ascii_of_nat 10)
            then cur :: splitlines_go "" s''
            else cur :: splitlines_go "" s'
        | EmptyString => cur :: splitlines_go "" s'
        end
      else splitlines_go (cur +:+ String c "") s'
  end.

Definition splitlines (s : string) : list string := splitlines_go "" s.

(** [s.split(sep)[0]] for a one character separator: what precedes the
    first [sep], the whole of [s] if there is none. *)
Fixpoint before (sep : ascii) (s : string) : string :=
  match s with
  | EmptyString => ""
  | String c s' => if Ascii.eqb c sep then "" else String c (before sep s')
  end.

(** [p in s] on strings. *)
Fixpoint substring_in (p s : string) : bool :=
  String.prefix p s ||
  match s with
  | EmptyString => false
  | String _ s' => substring_in p s'
  end.

(** [os.path.join(os.path.sep, path)]: an absolute [path] replaces the
    separator, a relative one is appended to it. *)
Definition join_sep (path : string) : string :=
  if startswith path "/" then path else "/" +:+ path.

(** Exceptions of the two queries: a typed repository error, the
    [IndexError] of an empty selection, or the untouched error of the
    subprocess. *)
Inductive failure :=
| FileProviderNotFound (file_path : string)
| NoLine
| ProcessError (cmd : list string).

Inductive answer (A : Type) :=
| Answer (a : A)
| Fails (f : failure).
Arguments Answer {A} a.
Arguments Fails {A} f.

Definition search_command (file_path : string) : list string :=
  ["dpkg-query"; "-S"; join_sep file_path].

(** The body of [_run_dpkg_query_search], which the decorator wraps. *)
Definition _run_dpkg_query_search_body (host : Host) (file_path : string)
    : list event * answer string :=
  match check_output host (search_command file_path) with
  | None =>
      ([CheckOutput (search_command file_path);
        LogDebug "Error finding package for %s: %s"
          (file_path :: search_command file_path)],
       Fails (FileProviderNotFound file_path))
  | Some raw =>
      let output := strip raw in
      match List.filter (λ p, negb (startswith p "diversion"))
              (splitlines output) with
      | provides_output :: _ =>
          ([CheckOutput (search_command file_path)],
           Answer (before ":" provides_output))
      | [] => ([CheckOutput (search_command file_path)], Fails NoLine)
      end
  end.

Definition list_files_command (package_name : string) : list string :=
  ["dpkg"; "-L"; package_name].

(** The body of [_run_dpkg_query_list_files]; [isfile] is [os.path.isfile]. *)
Definition _run_dpkg_query_list_files_body
    (host : Host) (isfile : string → bool) (package_name : string)
    : list event * answer (gset string) :=
  match check_output host (list_files_command package_name) with
  | None =>
      ([CheckOutput (list_files_command package_name)],
       Fails (ProcessError (list_files_command package_name)))
  | Some raw =>
      let output := split (strip raw) in
      ([CheckOutput (list_files_command package_name)],
       Answer (list_to_set
                 (List.filter (λ i, substring_in "lib" i && isfile i) output)))
  end.

(** [functools.lru_cache(maxsize)] around a function of one [str]: the
    cache lists the remembered calls, the most recently used first.  A
    hit moves its entry to the front and calls nothing; a miss calls the
    function and remembers a returned value, dropping the least recently
    used entry when the cache is full; an exception is not remembered. *)
Section lru_cache.
Context {V : Type}.
Variable maxsize : nat.
Variable body : string → list event * answer V.

Fixpoint cache_get (cache : list (string * V)) (key : string) : option V :=
  match cache with
  | [] => None
  | (k, v) :: cache => if String.eqb k key then Some v else cache_get cache key
  end.

Fixpoint cache_remove (cache : list (string * V)) (key : string)
    : list (string * V) :=
  match cache with
  | [] => []
  | (k, v) :: cache =>
      if String.eqb k key then cache_remove cache key
      else (k, v) :: cache_remove cache key
  end.

Definition lru_cache (cache : list (string * V)) (key : string)
    : list event * answer V * list (string * V) :=
  match cache_get cache key with
  | Some v => ([], Answer v, (key, v) :: cache_remove cache key)
  | None =>
      match body key with
      | (t, Answer v) => (t, Answer v, take maxsize ((key, v) :: cache))
      | (t, Fails f) => (t, Fails f, cache)
      end
  end.

End lru_cache.

Definition _run_dpkg_query_search (host : Host)
    (cache : list (string * string)) (file_path : string)
    : list event * answer string * list (string * string) :=
  lru_cache 256 (_run_dpkg_query_search_body host) cache file_path.

Definition _run_dpkg_query_list_files (host : Host) (isfile : string → bool)
    (cache : list (string * gset string)) (package_name : string)
    : list event * answer (gset string) * list (string * gset string) :=
  lru_cache 256 (_run_dpkg_query_list_files_body host isfile) cache package_name.

(** [Ubuntu.get_package_libraries] *)
Definition get_package_libraries (host : Host) (isfile : string → bool)
    (cache : list (string * gset string)) (package_name : string)
    : list event * answer (gset string) * list (string * gset string) :=
  _run_dpkg_query_list_files host isfile cache package_name.

End Dpkg.

(** * Properties of deb.py *)
Module DebProofs.
Import Py Eff Deb.

(** The reading of an installed-package listing that the specification
    gives: the second white space separated field of every line that
    starts with the installed marker. *)
Definition is_installed_line (line : string) : bool := startswith line "ii ".

Fixpoint second_fields (lines : list string) : result (list string) :=
  match lines with
  | [] => Ok []
  | line :: lines =>
      field ← getitem (split line) 1;
      fields ← second_fields lines;
      Ok (field :: fields)
  end.

Definition installed_names (file : list string) : result (list string) :=
  second_fields (List.filter is_installed_line file).

Definition legacy_bases : list string := ["core"; "core16"; "core18"].

(** A host on which nothing exists, nothing is installed and every
    command succeeds; the examples override single fields of it. *)
Definition quiet_host : Host :=
  {| read_lines := λ _, None;
     iterdir := λ _, [];
     get_installed_version := λ _, None;
     mark_packages_fails := λ _ _, None;
     get_packages_marked_for_installation := λ _ _ _, [];
     fetch_archives := λ _ _ _ _, [];
     process_ok := λ _, true;
     check_output := λ _, Some "";
     mkdir_ok := λ _, true;
     mkdtemp := λ suffix dir n, path_div dir ("tmp" +:+ pretty n +:+ suffix) |}.

(** The example of the specification: on core20 the listing names
    python3-yaml and libbar (and a removed package). *)
Definition core20_host : Host :=
  {| read_lines := λ p,
       if String.eqb p "/snap/core20/current/usr/share/snappy/dpkg.list"
       then Some ["Desired=Unknown/Install/Remove/Purge/Hold" +:+ LF;
                  "ii  python3-yaml 5.3.1-1 amd64 YAML parser" +:+ LF;
                  "rc  libold 0.1 amd64 removed library" +:+ LF;
                  "ii  libbar 1.0 amd64 some library" +:+ LF]
       else None;
     iterdir := iterdir quiet_host;
     get_installed_version := get_installed_version quiet_host;
     mark_packages_fails := mark_packages_fails quiet_host;
     get_packages_marked_for_installation :=
       get_packages_marked_for_installation quiet_host;
     fetch_archives := fetch_archives quiet_host;
     process_ok := process_ok quiet_host;
     check_output := check_output quiet_host;
     mkdir_ok := mkdir_ok quiet_host;
     mkdtemp := mkdtemp quiet_host |}.

Section Manifest.
Variable from_unparsed : string → DebPackage.

Lemma rbind_Ok {A B} (a : A) (k : A → result B) : (Ok a ≫= k) = k a.
Proof. reflexivity. Qed.

Lemma rbind_Raise {A B} e (k : A → result B) : (Raise e ≫= k) = Raise e.
Proof. reflexivity. Qed.

(** The loop appends to its accumulator the packages of the installed
    lines, in order, and stops at the first such line without a second
    field. *)
Lemma get_packages_in_base_loop_spec file acc :
  get_packages_in_base_loop from_unparsed file acc =
  (names ← installed_names file; Ok (acc ++ (from_unparsed <$> names))).
Proof.
  unfold installed_names. revert acc.
  induction file as [|line file IH]; intros acc; simpl.
  - by rewrite app_nil_r.
  - unfold is_installed_line at 1.
    destruct (startswith line "ii "); simpl; [|apply IH].
    destruct (getitem (split line) 1) as [field|e]; simpl; [|done].
    rewrite IH.
    destruct (second_fields _) as [fields|e]; simpl; [|done].
    by rewrite <-app_assoc.
Qed.

Lemma contains_legacy base :
  contains [Str "core"; Str "core16"; Str "core18"] (Str base) =
  bool_decide (base ∈ legacy_bases).
Proof.
  unfold contains, legacy_bases; simpl.
  destruct (String.eqb_spec base "core") as [E1|N1]; [by subst|].
  destruct (String.eqb_spec base "core16") as [E2|N2]; [by subst|].
  destruct (String.eqb_spec base "core18") as [E3|N3]; [by subst|].
  simpl. symmetry. apply bool_decide_eq_false.
  rewrite !elem_of_cons, elem_of_nil. tauto.
Qed.

(** C2. For a base of the fixed legacy set [get_packages_in_base] returns
    the frozen historical list whatever the file system holds.  For any
    other base it reads the listing at the path keyed by the base name: a
    missing file gives the empty manifest, and a present one gives the
    packages named by the second white space separated field of the
    lines that start with ["ii "], and by no other line. *)
Theorem get_packages_in_base_spec (host host' : Host) (base : string)
    (file : list string) :
  (base ∈ legacy_bases →
     get_packages_in_base from_unparsed host base =
       Ok (map from_unparsed _DEFAULT_FILTERED_STAGE_PACKAGES) ∧
     get_packages_in_base from_unparsed host' base =
       get_packages_in_base from_unparsed host base) ∧
  (base ∉ legacy_bases →
     read_lines host (_get_dpkg_list_path base) = None →
     get_packages_in_base from_unparsed host base = Ok []) ∧
  (base ∉ legacy_bases →
     read_lines host (_get_dpkg_list_path base) = Some file →
     get_packages_in_base from_unparsed host base =
       (names ← installed_names file; Ok (map from_unparsed names))).
Proof.
  unfold get_packages_in_base. rewrite !contains_legacy.
  split_and!.
  - intros Hin. by rewrite !bool_decide_eq_true_2.
  - intros Hin Hno. by rewrite bool_decide_eq_false_2, Hno.
  - intros Hin Hfile. rewrite bool_decide_eq_false_2, Hfile by done.
    by rewrite get_packages_in_base_loop_spec.
Qed.

(** Lines that do not start with the installed marker can be dropped
    from a listing without changing the manifest. *)
Lemma installed_names_filter file :
  installed_names (List.filter is_installed_line file) = installed_names file.
Proof.
  unfold installed_names. f_equal.
  induction file as [|l file IH]; simpl; [done|].
  destruct (is_installed_line l) eqn:E; simpl; [|done].
  by rewrite E, IH.
Qed.

(** C1. The names filtered out for a base and a requested package list
    are those of the manifest of the base, minus the requested names,
    minus the names exempted for that base; a requested name is never
    filtered out, even if the manifest has it. *)
Theorem filtered_stage_package_names_spec (host : Host) (base : string)
    (package_list manifest : list DebPackage) :
  get_packages_in_base from_unparsed host base = Ok manifest →
  ∃ filtered_out : gset string,
    _get_filtered_stage_package_names from_unparsed host base package_list =
      Ok filtered_out ∧
    filtered_out =
      list_to_set (name <$> manifest) ∖ list_to_set (name <$> package_list)
        ∖ default ∅ (IGNORE_FILTERS !! base) ∧
    (∀ x, x ∈ filtered_out ↔
          (∃ p, p ∈ manifest ∧ name p = x) ∧
          (∀ q, q ∈ package_list → name q ≠ x) ∧
          x ∉ default ∅ (IGNORE_FILTERS !! base)) ∧
    (∀ q, q ∈ package_list → name q ∉ filtered_out).
Proof.
  intros Hm. eexists. unfold _get_filtered_stage_package_names.
  rewrite Hm, rbind_Ok. split; [reflexivity|]. split; [reflexivity|].
  split.
  - intros x. rewrite !elem_of_difference, !elem_of_list_to_set,
      !list_elem_of_fmap.
    split.
    + intros [[(p & -> & Hp) Hreq] Hign]. split_and!; [eauto| |done].
      intros q Hq Heq. apply Hreq. eauto.
    + intros ((p & Hp & <-) & Hreq & Hign). split_and!; [eauto| |done].
      intros (q & Heq & Hq). by apply (Hreq q).
  - intros q Hq. rewrite !elem_of_difference, !elem_of_list_to_set,
      !list_elem_of_fmap.
    intros [[_ Hreq] _]. apply Hreq. eauto.
Qed.

End Manifest.

(** The methods below are checked with the modelled helpers in place of
    the two imported ones. *)
Definition example_file : list string :=
  ["ii  adduser 3.118ubuntu1 all add and remove users" +:+ LF;
   "un  ghost <none> <none> (no description available)" +:+ LF].

Definition modern_host : Host :=
  {| read_lines := λ p,
       if String.eqb p "/snap/core22/current/usr/share/snappy/dpkg.list"
       then Some example_file else None;
     iterdir := iterdir quiet_host;
     get_installed_version := get_installed_version quiet_host;
     mark_packages_fails := mark_packages_fails quiet_host;
     get_packages_marked_for_installation :=
       get_packages_marked_for_installation quiet_host;
     fetch_archives := fetch_archives quiet_host;
     process_ok := process_ok quiet_host;
     check_output := check_output quiet_host;
     mkdir_ok := mkdir_ok quiet_host;
     mkdtemp := mkdtemp quiet_host |}.

Lemma not_legacy (base : string) :
  bool_decide (base ∈ legacy_bases) = false → base ∉ legacy_bases.
Proof. apply bool_decide_eq_false. Qed.

Lemma get_packages_in_base_spec_witness :
  get_packages_in_base spec_from_unparsed modern_host "core18" =
    Ok (map spec_from_unparsed _DEFAULT_FILTERED_STAGE_PACKAGES) ∧
  get_packages_in_base spec_from_unparsed quiet_host "core22" = Ok [] ∧
  get_packages_in_base spec_from_unparsed modern_host "core22" =
    Ok [{| name := "adduser"; version := None |}].
Proof.
  split_and!.
  - apply (proj1 (get_packages_in_base_spec spec_from_unparsed modern_host
                    quiet_host "core18" [])).
    unfold legacy_bases. rewrite !elem_of_cons. tauto.
  - apply (proj1 (proj2 (get_packages_in_base_spec spec_from_unparsed
                           quiet_host quiet_host "core22" [])));
      [by apply not_legacy | reflexivity].
  - etrans.
    + apply (proj2 (proj2 (get_packages_in_base_spec spec_from_unparsed
                             modern_host quiet_host "core22" example_file)));
        [by apply not_legacy | reflexivity].
    + reflexivity.
Defined.

Lemma filtered_stage_package_names_spec_witness :
  ∃ filtered_out : gset string,
    _get_filtered_stage_package_names spec_from_unparsed core20_host "core20"
      [spec_from_unparsed "libfoo"] = Ok filtered_out ∧
    filtered_out = {[ "libbar" ]}.
Proof.
  destruct (filtered_stage_package_names_spec spec_from_unparsed core20_host
              "core20" [spec_from_unparsed "libfoo"]
              [spec_from_unparsed "python3-yaml"; spec_from_unparsed "libbar"])
    as (filtered_out & Hrun & Heq & _).
  - reflexivity.
  - exists filtered_out. split; [exact Hrun|].
    rewrite Heq. vm_compute. reflexivity.
Defined.

(** C9 (as the source has it). A subversion source type, given as the
    string ["svn"] or ["subversion"], gets no package: the branch compares
    the argument with a list, which only a list equals. *)
Theorem get_packages_for_source_type_subversion :
  get_packages_for_source_type (Str "subversion") = ∅ ∧
  get_packages_for_source_type (Str "svn") = ∅ ∧
  get_packages_for_source_type (StrList ["svn"; "subversion"]) = {[ "subversion" ]}.
Proof. split_and!; reflexivity. Qed.

(** The other branches give the package the specification names. *)
Lemma get_packages_for_source_type_others :
  get_packages_for_source_type (Str "bzr") = {[ "bzr" ]} ∧
  get_packages_for_source_type (Str "git") = {[ "git" ]} ∧
  get_packages_for_source_type (Str "tar") = {[ "tar" ]} ∧
  get_packages_for_source_type (Str "hg") = {[ "mercurial" ]} ∧
  get_packages_for_source_type (Str "mercurial") = {[ "mercurial" ]} ∧
  get_packages_for_source_type (Str "rpm2cpio") = {[ "rpm2cpio" ]} ∧
  get_packages_for_source_type (Str "7zip") = {[ "p7zip-full" ]}.
Proof. split_and!; reflexivity. Qed.

Lemma get_packages_for_source_type_unknown (s : string) :
  s ∉ ["bzr"; "git"; "tar"; "hg"; "mercurial"; "rpm2cpio"; "7zip"] →
  get_packages_for_source_type (Str s) = ∅.
Proof.
  rewrite !elem_of_cons, elem_of_nil. intros Hs.
  unfold get_packages_for_source_type, contains; simpl.
  repeat match goal with
  | |- context [String.eqb s ?t] =>
      destruct (String.eqb_spec s t) as [->|?]; [exfalso; tauto|]
  end.
  reflexivity.
Qed.

(** ** Installing build packages *)

Definition apt_install_command : list string :=
  ["apt-get"; "--no-install-recommends"; "-y"; "-oDpkg::Use-Pty=0";
   "--allow-downgrades"; "install"].

Definition apt_mark_command : list string := ["apt-mark"; "auto"].

Definition install_env : list (string * string) :=
  [("DEBIAN_FRONTEND", "noninteractive");
   ("DEBCONF_NONINTERACTIVE_SEEN", "true");
   ("DEBIAN_PRIORITY", "critical")].

(** Events that change the host: commands run through [process_run] and
    writes to the file system.  Log records and the calls on the in-memory
    apt cache do not. *)
Definition mutates_host (e : event) : bool :=
  match e with
  | ProcessRun _ _ | Mkdir _ _ _ | LinkOrCopy _ _ | TempDirEnter _
  | TempDirExit _ | MarkOriginStagePackage _ _ | LinkOrCopyTree _ _
  | Normalize _ => true
  | _ => false
  end.

(** The names whose installed version a run asked for, in order. *)
Definition installed_queries (t : list event) : list string :=
  omap (λ e, match e with AptGetInstalledVersion n => Some n | _ => None end) t.

Global Instance tuple_le_total : Total tuple_le.
Proof.
  intros [n1 v1] [n2 v2]. unfold tuple_le; simpl.
  destruct (decide (n1 = n2)) as [->|Hne].
  - destruct (total String.le v1 v2); [left|right]; right; done.
  - destruct (total String.le n1 n2); [left|right]; left; split; congruence.
Qed.

(** Events of a sequence: those of its first part, and those of the
    continuation when the first part returns. *)
Lemma elem_of_bind_l {A B} (c : M A) (k : A → M B) (e : event) :
  e ∈ c.1 → e ∈ (bind c k).1.
Proof.
  unfold bind. destruct c as [t [a|x|cmd]]; cbn [fst snd]; [|done..].
  intros Hin. apply elem_of_app. by left.
Qed.

Lemma elem_of_bind_r {A B} (c : M A) (k : A → M B) (a : A) (e : event) :
  c.2 = Return a → e ∈ (k a).1 → e ∈ (bind c k).1.
Proof.
  unfold bind. intros -> Hin. cbn [fst]. apply elem_of_app. by right.
Qed.

Section Install.
Variable get_pkg_name_parts : string → string * option string.

Local Abbreviation install_build_packages :=
  (install_build_packages get_pkg_name_parts).
Local Abbreviation _install_packages :=
  (_install_packages get_pkg_name_parts).
Local Abbreviation check_loop :=
  (_check_if_all_packages_installed_loop get_pkg_name_parts).

Definition versionless (packages : list string) : list string :=
  (λ p, (get_pkg_name_parts p).1) <$> packages.

(** A requested package is satisfied when the version installed for its
    name exists and equals the pinned one, if one is pinned. *)
Definition satisfied (host : Host) (package : string) : Prop :=
  ∃ iv, get_installed_version host (get_pkg_name_parts package).1 = Some iv ∧
        ∀ pv, (get_pkg_name_parts package).2 = Some pv → iv = pv.

Definition all_installed (host : Host) (package_names : list string) : Prop :=
  Forall (satisfied host) package_names.

(** The loop asks for the packages in order, stops at the first one that
    is not satisfied, and tells whether it reached the end. *)
Lemma check_loop_spec host package_names :
  ∃ (k : nat) (b : bool),
    check_loop host package_names =
      (AptGetInstalledVersion <$> take k (versionless package_names), Return b) ∧
    (b = true ↔ all_installed host package_names).
Proof.
  unfold all_installed.
  induction package_names as [|package rest (k & b & IH & Hb)].
  - exists 0, true. split; [done|]. split; [constructor|done].
  - change (versionless (package :: rest))
      with ((get_pkg_name_parts package).1 :: versionless rest).
    setoid_rewrite Forall_cons. unfold satisfied at 1. simpl.
    destruct (get_pkg_name_parts package) as [pkg_name pkg_version]; simpl.
    unfold mbind, M_bind, bind, apt_get_installed_version; simpl.
    destruct (get_installed_version host pkg_name) as [iv|] eqn:Hiv.
    + destruct pkg_version as [pv|].
      * destruct (String.eqb_spec iv pv) as [->|Hne]; simpl.
        -- rewrite IH; simpl. exists (S k), b. split; [done|].
           rewrite <-Hb. split; [|tauto]. intros ->. split; [|done].
           exists pv. split; [done|]. by intros ? [= ->].
        -- exists 1, false. split; [done|]. split; [done|].
           intros [(iv' & [= <-] & Hpin) _]. destruct Hne. by apply Hpin.
      * rewrite IH; simpl. exists (S k), b. split; [done|].
        rewrite <-Hb. split; [|tauto]. intros ->. split; [|done].
        exists iv. split; [done|]. by intros ? [=].
    + exists 1, false.
      destruct pkg_version; (split; [done|]); (split; [done|]);
        by intros [(iv' & [=] & _) _].
Qed.

(** What [_install_packages] does, by the exit status of its two
    commands. *)
Lemma _install_packages_run host packages :
  _install_packages host packages =
    let install := apt_install_command ++ packages in
    let mark := apt_mark_command ++ versionless packages in
    let log := LogDebug "Installing build dependencies: %s" [join " " packages] in
    if process_ok host install then
      ([log; ProcessRun install install_env; ProcessRun mark install_env] ++
       (if process_ok host mark then []
        else [LogWarning "Impossible to mark packages as auto-installed: %s" mark]),
       Return tt)
    else
      ([log; ProcessRun install install_env],
       Throw (BuildPackagesNotInstalled packages)).
Proof.
  unfold Deb._install_packages, versionless, apt_install_command,
    apt_mark_command, install_env.
  unfold mbind, M_bind, bind, try_except, process_run, emit, raise; simpl.
  destruct (process_ok host (_ :: _ :: _ :: _ :: _ :: _ :: packages)); simpl;
    [|done].
  by destruct (process_ok host (_ :: _ :: _)).
Qed.

(** The events of a run up to the marking of the requested packages. *)
Definition resolve_prefix (sn : list string) (k : nat) : list event :=
  [LogDebug "Requested build-packages: %s" sn; AptEnter None] ++
  (AptGetInstalledVersion <$> take k (versionless sn)) ++
  [AptExit None; AptEnter None; AptMarkPackages (list_to_set sn)].

(** The [name=version] strings the apt cache resolves a request to. *)
Definition resolved (host : Host) (sn : list string) : list string :=
  name_version <$>
    sorted_tuples
      (get_packages_marked_for_installation host None (list_to_set sn) ∅).

Definition keep {A} (packages : list string) (o : outcome A)
    : outcome (list string) :=
  match o with
  | Return _ => Return packages
  | Throw e => Throw e
  | CalledProcessError cmd => CalledProcessError cmd
  end.

(** What [install_build_packages] does on a non-empty request. *)
Lemma install_build_packages_run host n ns list_only :
  let sn := sorted (n :: ns) in
  ∃ (k : nat) (b : bool),
    (b = true ↔ all_installed host (n :: ns)) ∧
    install_build_packages host (n :: ns) list_only =
      match mark_packages_fails host None (list_to_set sn) with
      | Some m =>
          (resolve_prefix sn k ++ [AptExit None], Throw (BuildPackageNotFound m))
      | None =>
          let packages := resolved host sn in
          let planned := resolve_prefix sn k ++ [AptGetMarked; AptExit None] in
          if list_only then (planned, Return packages)
          else if b then
            (planned ++
               [LogDebug "Requested build-packages already installed: %s" packages],
             Return packages)
          else
            (planned ++ (_install_packages host packages).1,
             keep packages (_install_packages host packages).2)
      end.
Proof.
  intros sn.
  destruct (check_loop_spec host sn) as (k & b & Hloop & Hb).
  exists k, b. split.
  { rewrite Hb. unfold all_installed, sn, sorted.
    by rewrite merge_sort_Permutation. }
  unfold Deb.install_build_packages. fold sn.
  unfold resolved, resolve_prefix.
  generalize (Deb._install_packages get_pkg_name_parts host).
  intros inst.
  unfold _check_if_all_packages_installed, _get_packages_marked_for_installation,
    with_AptCache, finally, except_PackageNotFound, apt_mark_packages,
    apt_get_packages_marked_for_installation.
  unfold mbind, M_bind, mret, M_ret, bind, ret, emit, raise.
  rewrite Hloop. cbn [fst snd app].
  destruct (mark_packages_fails host None (list_to_set sn)); cbn [fst snd app].
  - by rewrite <-!app_assoc.
  - destruct list_only; cbn [negb fst snd app].
    + by rewrite ?app_nil_r, <-?app_assoc.
    + destruct b; cbn [negb fst snd app].
      * by rewrite ?app_nil_r, <-?app_assoc.
      * destruct (inst _) as [t [[]|e|cmd]]; cbn [fst snd app keep];
          by rewrite ?app_nil_r, <-?app_assoc.
Qed.

Lemma installed_queries_fmap (l : list string) :
  installed_queries (AptGetInstalledVersion <$> l) = l.
Proof. induction l as [|x l IH]; simpl; [done|]. by f_equal. Qed.

Lemma installed_queries_app t1 t2 :
  installed_queries (t1 ++ t2) = installed_queries t1 ++ installed_queries t2.
Proof. apply omap_app. Qed.

Lemma installed_queries_resolve_prefix sn k :
  installed_queries (resolve_prefix sn k) = take k (versionless sn).
Proof.
  unfold resolve_prefix. rewrite !installed_queries_app, installed_queries_fmap.
  simpl. by rewrite app_nil_r.
Qed.

Lemma resolve_prefix_quiet sn k :
  Forall (λ e, mutates_host e = false) (resolve_prefix sn k).
Proof.
  unfold resolve_prefix. rewrite !Forall_app, Forall_fmap.
  split_and!; [by repeat constructor| |by repeat constructor].
  by apply Forall_true.
Qed.

Lemma quiet_no_command (t : list event) :
  Forall (λ e, mutates_host e = false) t → ∀ cmd env, ProcessRun cmd env ∉ t.
Proof. rewrite Forall_forall. intros Hq cmd env Hin. by apply Hq in Hin. Qed.

Lemma sorted_spec (l : list string) : Sorted String.le (sorted l) ∧ sorted l ≡ₚ l.
Proof.
  split; [apply (Sorted_merge_sort String.le) | apply merge_sort_Permutation].
Qed.

Lemma sorted_tuples_spec (l : list (string * string)) :
  Sorted tuple_le (sorted_tuples l) ∧ sorted_tuples l ≡ₚ l.
Proof.
  split; [apply (Sorted_merge_sort tuple_le) | apply merge_sort_Permutation].
Qed.

(** The trace of [_install_packages]: the install command, then, if it
    succeeded, the auto-mark command. *)
Lemma _install_packages_commands host packages cmd env :
  ProcessRun cmd env ∈ (_install_packages host packages).1 →
  env = install_env ∧
  (cmd = apt_install_command ++ packages ∨
   cmd = apt_mark_command ++ versionless packages ∧
   process_ok host (apt_install_command ++ packages) = true).
Proof.
  rewrite _install_packages_run. cbv zeta.
  destruct (process_ok host (apt_install_command ++ packages));
    [destruct (process_ok host (apt_mark_command ++ versionless packages))|];
    cbn [fst app]; rewrite !elem_of_cons, elem_of_nil;
    intros Hin; destruct_or!; try done; simplify_eq; auto.
Qed.

(** The commands of [install_build_packages] as the source has them.
    The requested names are sorted first: the installed versions are asked
    for in ascending order of the request.  With the call of the refresh
    commented out, no run contains [apt-get update]; and when every
    requested package is installed at the required version no command is
    run at all. *)
Theorem install_build_packages_never_refreshes
    (host : Host) (package_names : list string) (list_only : bool) :
  let c := install_build_packages host package_names list_only in
  (Sorted String.le (sorted package_names) ∧
   sorted package_names ≡ₚ package_names) ∧
  (∃ k, installed_queries (trace c) = take k (versionless (sorted package_names))) ∧
  (∀ env, ProcessRun ["apt-get"; "update"] env ∉ trace c) ∧
  (all_installed host package_names → ∀ cmd env, ProcessRun cmd env ∉ trace c).
Proof.
  intros c. split; [apply sorted_spec|]. subst c.
  destruct package_names as [|n ns].
  { simpl. split; [by exists 0|]. split; [|intros _]; intros; apply not_elem_of_nil. }
  destruct (install_build_packages_run host n ns list_only)
    as (k & b & Hb & ->).
  unfold trace. cbv zeta.
  destruct (mark_packages_fails host None _) as [m|]; cbn [fst].
  { split; [|split].
    - exists k. rewrite installed_queries_app, installed_queries_resolve_prefix.
      apply app_nil_r.
    - intros env. apply quiet_no_command. rewrite Forall_app.
      split; [apply resolve_prefix_quiet | by repeat constructor].
    - intros _. apply quiet_no_command. rewrite Forall_app.
      split; [apply resolve_prefix_quiet | by repeat constructor]. }
  assert (Hplanned :
    Forall (λ e, mutates_host e = false)
      (resolve_prefix (sorted (n :: ns)) k ++ [AptGetMarked; AptExit None])).
  { rewrite Forall_app. split; [apply resolve_prefix_quiet | by repeat constructor]. }
  assert (Hqueries :
    installed_queries
      (resolve_prefix (sorted (n :: ns)) k ++ [AptGetMarked; AptExit None]) =
    take k (versionless (sorted (n :: ns)))).
  { rewrite installed_queries_app, installed_queries_resolve_prefix.
    apply app_nil_r. }
  destruct list_only; cbn [fst].
  { split; [by exists k|]. split; [|intros _]; by apply quiet_no_command. }
  destruct b; cbn [fst].
  { assert (Hq : Forall (λ e, mutates_host e = false)
                   ((resolve_prefix (sorted (n :: ns)) k ++
                       [AptGetMarked; AptExit None]) ++
                    [LogDebug "Requested build-packages already installed: %s"
                       (resolved host (sorted (n :: ns)))])).
    { rewrite Forall_app. split; [done | by repeat constructor]. }
    split; [|split; [|intros _]; by apply quiet_no_command].
    exists k. rewrite installed_queries_app, Hqueries. apply app_nil_r. }
  split; [|split].
  - exists k. rewrite installed_queries_app, Hqueries, _install_packages_run.
    cbv zeta.
    destruct (process_ok host
                (apt_install_command ++ resolved host (sorted (n :: ns))));
      [destruct (process_ok host
                   (apt_mark_command ++
                      versionless (resolved host (sorted (n :: ns)))))|];
      apply app_nil_r.
  - intros env [Hin|Hin]%elem_of_app.
    + by apply (quiet_no_command _ Hplanned) in Hin.
    + apply _install_packages_commands in Hin as [_ [Hcmd|[Hcmd _]]];
        discriminate Hcmd.
  - intros Hall. assert (false = true) by by apply Hb. done.
Qed.

(** C4 (amended). In list-only mode [install_build_packages] changes
    nothing on the host: it runs no command and writes nothing.  It
    returns the list the other mode returns.  That list is the resolved
    [(name, version)] pairs in ascending order of the pairs, each written
    [name=version]; as strings it need not be sorted.  The other mode
    installs exactly that list when some requested package is not
    installed at the required version: it runs the install command with
    these packages and returns the list if the command succeeds, and
    raises [BuildPackagesNotInstalled] if it fails.  When every requested
    package is installed it installs nothing and returns the list. *)
Theorem list_only_resolves_the_same (host : Host) (package_names : list string) :
  let dry := install_build_packages host package_names true in
  let wet := install_build_packages host package_names false in
  Forall (λ e, mutates_host e = false) (trace dry) ∧
  (∀ packages, outcome_of wet = Return packages →
               outcome_of dry = Return packages) ∧
  (∀ packages, outcome_of dry = Return packages →
     (outcome_of wet = Return packages ∨
      outcome_of wet = Throw (BuildPackagesNotInstalled packages)) ∧
     (∀ args env, ProcessRun (apt_install_command ++ args) env ∈ trace wet →
                  args = packages) ∧
     (∃ marked, packages = name_version <$> sorted_tuples marked ∧
                Sorted tuple_le (sorted_tuples marked)) ∧
     (all_installed host package_names →
      outcome_of wet = Return packages ∧
      Forall (λ e, mutates_host e = false) (trace wet)) ∧
     (¬ all_installed host package_names →
      ProcessRun (apt_install_command ++ packages) install_env ∈ trace wet ∧
      (process_ok host (apt_install_command ++ packages) = true →
       outcome_of wet = Return packages) ∧
      (process_ok host (apt_install_command ++ packages) = false →
       outcome_of wet = Throw (BuildPackagesNotInstalled packages)))).
Proof.
  cbv zeta. destruct package_names as [|n ns].
  { simpl. split; [constructor|]. split; [done|].
    intros packages [= <-]. split; [by left|].
    split; [by intros ?? ?%elem_of_nil|].
    split; [exists []; split; [done|apply sorted_tuples_spec]|].
    split; [intros _; split; [done|constructor]|].
    intros Hno. destruct Hno. constructor. }
  destruct (install_build_packages_run host n ns true) as (k1 & b1 & _ & ->).
  destruct (install_build_packages_run host n ns false) as (k2 & b2 & Hb2 & ->).
  unfold trace, outcome_of. cbv zeta.
  destruct (mark_packages_fails host None _) as [m|]; cbn [fst snd].
  { split; [|done]. rewrite Forall_app.
    split; [apply resolve_prefix_quiet | by repeat constructor]. }
  split.
  { rewrite Forall_app. split; [apply resolve_prefix_quiet | by repeat constructor]. }
  assert (Hplanned :
    Forall (λ e, mutates_host e = false)
      (resolve_prefix (sorted (n :: ns)) k2 ++ [AptGetMarked; AptExit None])).
  { rewrite Forall_app. split; [apply resolve_prefix_quiet | by repeat constructor]. }
  destruct b2; cbn [fst snd].
  - split; [done|]. intros packages [= <-]. split; [by left|]. split; [|split].
    + intros args env [Hin|[=]%list_elem_of_singleton]%elem_of_app.
      by apply (quiet_no_command _ Hplanned) in Hin.
    + eexists. split; [reflexivity|apply sorted_tuples_spec].
    + split.
      * intros _. split; [done|]. rewrite Forall_app.
        split; [done | by repeat constructor].
      * intros Hno. destruct Hno. by apply Hb2.
  - split.
    { intros packages. rewrite _install_packages_run. cbv zeta.
      by destruct (process_ok host (apt_install_command ++ _)). }
    intros packages [= <-]. split; [|split; [|split]].
    + rewrite _install_packages_run. cbv zeta.
      destruct (process_ok host (apt_install_command ++ _)); [by left|by right].
    + intros args env [Hin|Hin]%elem_of_app.
      * by apply (quiet_no_command _ Hplanned) in Hin.
      * apply _install_packages_commands in Hin as [_ [Hcmd|[Hcmd _]]].
        -- by apply app_inv_head in Hcmd.
        -- discriminate Hcmd.
    + eexists. split; [reflexivity|apply sorted_tuples_spec].
    + split.
      * intros Hall. by apply Hb2 in Hall.
      * intros _. rewrite _install_packages_run. cbv zeta.
        destruct (process_ok host
                    (apt_install_command ++ resolved host (sorted (n :: ns))));
          cbn [fst snd keep].
        -- split; [|done]. rewrite !elem_of_app. right. left.
           rewrite !elem_of_cons. auto.
        -- split; [|done]. rewrite elem_of_app. right.
           rewrite !elem_of_cons. auto.
Qed.

(** C5 (amended). When the non-list-only run reaches the install command,
    the packages installed are the resolved ones.  If the command
    succeeds, the names of these resolved packages, without their
    versions, are marked as automatically installed, and the run returns
    normally whether or not that marking succeeds: its failure is only
    logged as a warning.  If the install command fails, the run raises
    [BuildPackagesNotInstalled] and marks nothing.  No failure of a
    command leaves [install_build_packages] as a bare
    [CalledProcessError]. *)
Theorem auto_mark_failure_is_a_warning (host : Host) (package_names : list string) :
  let c := install_build_packages host package_names false in
  (∀ cmd, outcome_of c ≠ CalledProcessError cmd) ∧
  (∀ packages env,
     ProcessRun (apt_install_command ++ packages) env ∈ trace c →
     let mark := apt_mark_command ++ versionless packages in
     packages = resolved host (sorted package_names) ∧
     if process_ok host (apt_install_command ++ packages) then
       outcome_of c = Return packages ∧
       ProcessRun mark install_env ∈ trace c ∧
       (process_ok host mark = false →
        LogWarning "Impossible to mark packages as auto-installed: %s" mark
          ∈ trace c)
     else
       outcome_of c = Throw (BuildPackagesNotInstalled packages) ∧
       ∀ args env', ProcessRun (apt_mark_command ++ args) env' ∉ trace c).
Proof.
  cbv zeta. destruct package_names as [|n ns].
  { simpl. split; [done|]. by intros ?? ?%elem_of_nil. }
  destruct (install_build_packages_run host n ns false) as (k & b & _ & ->).
  unfold trace, outcome_of. cbv zeta.
  destruct (mark_packages_fails host None _) as [m|]; cbn [fst snd].
  { split; [done|]. intros packages env Hin. exfalso. revert Hin.
    apply quiet_no_command. rewrite Forall_app.
    split; [apply resolve_prefix_quiet | by repeat constructor]. }
  assert (Hplanned :
    Forall (λ e, mutates_host e = false)
      (resolve_prefix (sorted (n :: ns)) k ++ [AptGetMarked; AptExit None])).
  { rewrite Forall_app. split; [apply resolve_prefix_quiet | by repeat constructor]. }
  destruct b; cbn [fst snd].
  { split; [done|].
    intros packages env [Hin|[=]%list_elem_of_singleton]%elem_of_app.
    by apply (quiet_no_command _ Hplanned) in Hin. }
  split.
  { intros cmd. rewrite _install_packages_run. cbv zeta.
    by destruct (process_ok host (apt_install_command ++ _)). }
  intros packages env [Hin|Hin]%elem_of_app.
  { by apply (quiet_no_command _ Hplanned) in Hin. }
  assert (packages = resolved host (sorted (n :: ns))) as ->.
  { apply _install_packages_commands in Hin as [_ [Hcmd|[Hcmd _]]].
    - by apply app_inv_head in Hcmd.
    - discriminate Hcmd. }
  clear Hin. split; [done|].
  rewrite _install_packages_run. cbv zeta.
  destruct (process_ok host (apt_install_command ++ _)); cbn [fst snd keep].
  - split; [done|]. split.
    + rewrite !elem_of_app. right. left. rewrite !elem_of_cons. auto.
    + intros ->. rewrite !elem_of_app. right. right.
      by apply list_elem_of_singleton.
  - split; [done|]. intros args env' [Hin|Hin]%elem_of_app.
    + by apply (quiet_no_command _ Hplanned) in Hin.
    + revert Hin. rewrite !elem_of_cons, elem_of_nil.
      intros [Hin|[Hin|[]]]; discriminate Hin.
Qed.

End Install.

Section Empty.
Variable from_unparsed : string → DebPackage.
Variable get_pkg_name_parts : string → string * option string.

(** C10. On an empty request both methods return the empty list at once:
    [install_build_packages] does nothing at all, and
    [fetch_stage_packages] only writes its debug log record; no apt cache
    is opened, no command is run and no directory is created. *)
Theorem empty_request_does_nothing
    (host : Host) (cache_dir stage_packages_path base target_arch : string)
    (list_only : bool) :
  install_build_packages get_pkg_name_parts host [] list_only = ([], Return []) ∧
  fetch_stage_packages from_unparsed host cache_dir [] stage_packages_path
    base target_arch list_only =
    ([LogDebug "Requested stage-packages: %s" []], Return []).
Proof. split; reflexivity. Qed.

(** On a non-empty request, once the directories exist and the marking
    succeeds, the names [fetch_stage_packages] unmarks are the filtered
    ones. *)
Lemma fetch_stage_packages_unmarks
    (host : Host) (cache_dir stage_packages_path base target_arch : string)
    (n : string) (ns : list string) (list_only : bool) (filtered : gset string) :
  _get_filtered_stage_package_names from_unparsed host base
    (from_unparsed <$> n :: ns) = Ok filtered →
  (∀ p, mkdir_ok host p = true) →
  mark_packages_fails host
    (Some (path_div cache_dir "stage-packages", target_arch))
    (list_to_set (n :: ns)) = None →
  AptUnmarkPackages filtered ∈
    trace (fetch_stage_packages from_unparsed host cache_dir (n :: ns)
             stage_packages_path base target_arch list_only).
Proof.
  intros Hf Hmk Hmark. unfold fetch_stage_packages, trace.
  unfold mbind, M_bind.
  eapply elem_of_bind_r; [reflexivity|].
  eapply elem_of_bind_r; [by rewrite Hf|].
  eapply elem_of_bind_r.
  { destruct list_only; cbn [negb]; [reflexivity|].
    unfold path_mkdir. by rewrite Hmk. }
  cbv beta iota delta [get_cache_dirs].
  eapply elem_of_bind_r; [unfold path_mkdir; by rewrite Hmk|].
  apply elem_of_bind_l. unfold with_AptCache, finally. cbn [fst].
  apply elem_of_app. left.
  eapply elem_of_bind_r; [reflexivity|].
  eapply elem_of_bind_r; [unfold apt_mark_packages; by rewrite Hmark|].
  apply elem_of_bind_l. apply list_elem_of_singleton. reflexivity.
Qed.

End Empty.

Definition apt_host (installed : string → option string)
    (marked : list (string * string)) (ok : list string → bool) : Host :=
  {| read_lines := read_lines quiet_host;
     iterdir := iterdir quiet_host;
     get_installed_version := installed;
     mark_packages_fails := mark_packages_fails quiet_host;
     get_packages_marked_for_installation := λ _ _ _, marked;
     fetch_archives := fetch_archives quiet_host;
     process_ok := ok;
     check_output := check_output quiet_host;
     mkdir_ok := mkdir_ok quiet_host;
     mkdtemp := mkdtemp quiet_host |}.

(** Nothing installed; a request resolves to gcc. *)
Definition gcc_host : Host :=
  apt_host (λ _, None) [("gcc", "4:10.2")] (λ _, true).

(** gcc is installed at version 4:10.2. *)
Definition gcc_installed_host : Host :=
  apt_host (λ n, if String.eqb n "gcc" then Some "4:10.2" else None) []
    (λ _, true).

(** The virtual package awk resolves to mawk. *)
Definition awk_host : Host :=
  apt_host (λ _, None) [("mawk", "1.3.4")] (λ _, true).

(** As [gcc_host], but [apt-mark] exits with an error. *)
Definition mark_fails_host : Host :=
  apt_host (λ _, None) [("gcc", "4:10.2")]
    (λ cmd, negb (bool_decide (head cmd = Some "apt-mark"))).

Lemma run_gcc :
  install_build_packages spec_get_pkg_name_parts gcc_host ["gcc"] false =
    ([LogDebug "Requested build-packages: %s" ["gcc"];
      AptEnter None; AptGetInstalledVersion "gcc"; AptExit None;
      AptEnter None; AptMarkPackages {[ "gcc" ]}; AptGetMarked; AptExit None;
      LogDebug "Installing build dependencies: %s" ["gcc=4:10.2"];
      ProcessRun (apt_install_command ++ ["gcc=4:10.2"]) install_env;
      ProcessRun ["apt-mark"; "auto"; "gcc"] install_env],
     Return ["gcc=4:10.2"]).
Proof. vm_compute. reflexivity. Qed.

Lemma run_awk :
  install_build_packages spec_get_pkg_name_parts awk_host ["awk"] false =
    ([LogDebug "Requested build-packages: %s" ["awk"];
      AptEnter None; AptGetInstalledVersion "awk"; AptExit None;
      AptEnter None; AptMarkPackages {[ "awk" ]}; AptGetMarked; AptExit None;
      LogDebug "Installing build dependencies: %s" ["mawk=1.3.4"];
      ProcessRun (apt_install_command ++ ["mawk=1.3.4"]) install_env;
      ProcessRun ["apt-mark"; "auto"; "mawk"] install_env],
     Return ["mawk=1.3.4"]).
Proof. vm_compute. reflexivity. Qed.

Lemma run_mark_fails :
  install_build_packages spec_get_pkg_name_parts mark_fails_host ["gcc"] false =
    ([LogDebug "Requested build-packages: %s" ["gcc"];
      AptEnter None; AptGetInstalledVersion "gcc"; AptExit None;
      AptEnter None; AptMarkPackages {[ "gcc" ]}; AptGetMarked; AptExit None;
      LogDebug "Installing build dependencies: %s" ["gcc=4:10.2"];
      ProcessRun (apt_install_command ++ ["gcc=4:10.2"]) install_env;
      ProcessRun ["apt-mark"; "auto"; "gcc"] install_env;
      LogWarning "Impossible to mark packages as auto-installed: %s"
        ["apt-mark"; "auto"; "gcc"]],
     Return ["gcc=4:10.2"]).
Proof. vm_compute. reflexivity. Qed.

(** C3 (as the source has it). With gcc requested and not installed, the
    run goes on to install gcc and does not refresh the package index
    first, although the comments of the source say that the cache is
    brought up to date when something has to be installed: the refresh is
    skipped without every requested package being installed. *)
Theorem install_runs_without_refresh :
  let c := install_build_packages spec_get_pkg_name_parts gcc_host ["gcc"] false in
  ¬ all_installed spec_get_pkg_name_parts gcc_host ["gcc"] ∧
  ProcessRun (apt_install_command ++ ["gcc=4:10.2"]) install_env ∈ trace c ∧
  (∀ env, ProcessRun ["apt-get"; "update"] env ∉ trace c) ∧
  ¬ ((∀ env, ProcessRun ["apt-get"; "update"] env ∉ trace c) ↔
     all_installed spec_get_pkg_name_parts gcc_host ["gcc"]).
Proof.
  cbv zeta.
  assert (Hno : ¬ all_installed spec_get_pkg_name_parts gcc_host ["gcc"]).
  { intros Hall. apply Forall_cons in Hall as [(iv & Hiv & _) _].
    discriminate Hiv. }
  assert (Hskip : ∀ env,
            ProcessRun ["apt-get"; "update"] env ∉
              trace (install_build_packages spec_get_pkg_name_parts gcc_host
                       ["gcc"] false)).
  { intros env. rewrite run_gcc. unfold trace. cbn [fst].
    rewrite !elem_of_cons, elem_of_nil.
    intros Hin. destruct_or!; try done; discriminate Hin. }
  split; [done|]. split; [|split; [done|]].
  - rewrite run_gcc. unfold trace. cbn [fst]. rewrite !elem_of_cons. auto 12.
  - intros [Himp _]. by apply Hno, Himp.
Qed.

Lemma install_build_packages_never_refreshes_witness :
  all_installed spec_get_pkg_name_parts gcc_installed_host ["gcc=4:10.2"] ∧
  ∀ cmd env,
    ProcessRun cmd env ∉
      trace (install_build_packages spec_get_pkg_name_parts gcc_installed_host
               ["gcc=4:10.2"] false).
Proof.
  assert (Hall : all_installed spec_get_pkg_name_parts gcc_installed_host
                   ["gcc=4:10.2"]).
  { apply Forall_cons. split; [|constructor].
    exists "4:10.2". split; [reflexivity|]. by intros pv [= <-]. }
  split; [exact Hall|].
  exact (proj2 (proj2 (proj2
    (install_build_packages_never_refreshes spec_get_pkg_name_parts
       gcc_installed_host ["gcc=4:10.2"] false))) Hall).
Defined.

(** A request for gcc resolves to gcc and the gcc-10 it depends on. *)
Definition gcc10_host : Host :=
  apt_host (λ _, None) [("gcc-10", "10.2"); ("gcc", "4:10.2")] (λ _, true).

(** C4 as stated fails: the list returned for gcc, in either mode, is in
    ascending order of the [(name, version)] pairs but not of the
    [name=version] strings. *)
Lemma resolved_list_not_sorted_as_strings :
  let dry :=
    install_build_packages spec_get_pkg_name_parts gcc10_host ["gcc"] true in
  let wet :=
    install_build_packages spec_get_pkg_name_parts gcc10_host ["gcc"] false in
  ¬ (∀ packages, outcome_of dry = Return packages →
       outcome_of wet = Return packages ∧ Sorted String.le packages).
Proof.
  cbv zeta. intros Hclaim.
  assert (Hdry : outcome_of
            (install_build_packages spec_get_pkg_name_parts gcc10_host ["gcc"]
               true) = Return ["gcc=4:10.2"; "gcc-10=10.2"])
    by (vm_compute; reflexivity).
  destruct (Hclaim _ Hdry) as [_ Hsorted].
  apply Sorted_inv in Hsorted as [_ Hhd]. apply HdRel_inv in Hhd.
  vm_compute in Hhd. done.
Qed.

Lemma list_only_resolves_the_same_witness :
  outcome_of
    (install_build_packages spec_get_pkg_name_parts gcc_host ["gcc"] true) =
    Return ["gcc=4:10.2"] ∧
  ProcessRun (apt_install_command ++ ["gcc=4:10.2"]) install_env ∈
    trace (install_build_packages spec_get_pkg_name_parts gcc_host ["gcc"] false) ∧
  outcome_of
    (install_build_packages spec_get_pkg_name_parts gcc_host ["gcc"] false) =
    Return ["gcc=4:10.2"].
Proof.
  assert (Hdry : outcome_of
            (install_build_packages spec_get_pkg_name_parts gcc_host ["gcc"] true) =
            Return ["gcc=4:10.2"]) by (vm_compute; reflexivity).
  assert (Hno : ¬ all_installed spec_get_pkg_name_parts gcc_host ["gcc"]).
  { intros Hall. apply Forall_cons in Hall as [(iv & Hiv & _) _].
    discriminate Hiv. }
  destruct (proj2 (proj2
    (list_only_resolves_the_same spec_get_pkg_name_parts gcc_host ["gcc"]))
    _ Hdry) as (_ & _ & _ & _ & Hinstall).
  destruct (Hinstall Hno) as (Hrun & Hok & _).
  split; [exact Hdry|]. split; [exact Hrun|]. apply Hok. reflexivity.
Defined.

(** C5 as stated fails: the request names awk, the apt cache resolves it
    to mawk, the install succeeds and [apt-mark auto] is given mawk, not
    the requested name. *)
Lemma requested_name_is_not_auto_marked :
  let c := install_build_packages spec_get_pkg_name_parts awk_host ["awk"] false in
  ¬ (∀ packages, outcome_of c = Return packages →
       ∃ args env, ProcessRun (apt_mark_command ++ args) env ∈ trace c ∧
                   ∀ n, n ∈ ["awk"] → n ∈ args).
Proof.
  cbv zeta. rewrite run_awk. intros Hclaim.
  destruct (Hclaim _ eq_refl) as (args & env & Hin & Hreq).
  unfold trace in Hin; cbn [fst] in Hin.
  assert (Hargs : args = ["mawk"]).
  { revert Hin. rewrite !elem_of_cons, elem_of_nil.
    intros Hin. destruct_or!; try done; by simplify_eq. }
  specialize (Hreq "awk" ltac:(by apply list_elem_of_singleton)).
  rewrite Hargs in Hreq. by apply list_elem_of_singleton in Hreq.
Qed.

Lemma auto_mark_failure_is_a_warning_witness :
  let c :=
    install_build_packages spec_get_pkg_name_parts mark_fails_host ["gcc"] false in
  ProcessRun (apt_install_command ++ ["gcc=4:10.2"]) install_env ∈ trace c ∧
  outcome_of c = Return ["gcc=4:10.2"] ∧
  LogWarning "Impossible to mark packages as auto-installed: %s"
    ["apt-mark"; "auto"; "gcc"] ∈ trace c.
Proof.
  cbv zeta.
  assert (Hin : ProcessRun (apt_install_command ++ ["gcc=4:10.2"]) install_env ∈
                trace (install_build_packages spec_get_pkg_name_parts
                         mark_fails_host ["gcc"] false)).
  { rewrite run_mark_fails. unfold trace. cbn [fst].
    rewrite !elem_of_cons. auto 12. }
  split; [exact Hin|].
  destruct (proj2 (auto_mark_failure_is_a_warning spec_get_pkg_name_parts
                     mark_fails_host ["gcc"]) _ _ Hin) as [_ Hif].
  replace (process_ok mark_fails_host (apt_install_command ++ ["gcc=4:10.2"]))
    with true in Hif by reflexivity.
  destruct Hif as (Hret & _ & Hwarn). split; [exact Hret|].
  apply Hwarn. reflexivity.
Defined.

(** ** Unpacking stage packages *)

Definition extract_command (deb extract_dir : string) : list string :=
  ["dpkg-deb"; "--extract"; deb; extract_dir].

Definition show_command (deb : string) : list string :=
  ["dpkg-deb"; "--show"; "--showformat=${Package}=${Version}"; deb].

(** The [name=version] that [dpkg-deb --show] reports for an archive. *)
Definition provenance (host : Host) (deb : string) : string :=
  strip (default "" (check_output host (show_command deb))).

(** The events of one archive unpacked without error, in the [n]-th
    temporary directory: extract, tag with the provenance, merge. *)
Definition unpack_one (host : Host) (install_path : string) (n : nat)
    (deb : string) : list event :=
  let d := mkdtemp host "deb-extract" (path_parent install_path) n in
  [TempDirEnter d;
   ProcessRun (extract_command deb d) [];
   CheckOutput (show_command deb);
   MarkOriginStagePackage d (provenance host deb);
   LinkOrCopyTree d install_path;
   TempDirExit d].

Fixpoint unpack_all (host : Host) (install_path : string)
    (debs : list string) (n : nat) : list event :=
  match debs with
  | [] => []
  | deb :: debs =>
      unpack_one host install_path n deb ++
      unpack_all host install_path debs (S n)
  end.

Definition is_normalize (e : event) : bool :=
  match e with Normalize _ => true | _ => false end.

Lemma bind_Return_inv {A B} (c : M A) (k : A → M B) (r : B) :
  (bind c k).2 = Return r →
  ∃ a, c.2 = Return a ∧ (k a).2 = Return r ∧ (bind c k).1 = c.1 ++ (k a).1.
Proof.
  unfold bind. destruct c as [t [a|x|cmd]]; cbn [fst snd]; [|done..].
  intros Hk. by exists a.
Qed.

Lemma _extract_deb_Return host deb d u :
  (_extract_deb host deb d).2 = Return u →
  process_ok host (extract_command deb d) = true ∧
  (_extract_deb host deb d).1 = [ProcessRun (extract_command deb d) []].
Proof.
  unfold _extract_deb, try_except, process_run, extract_command, raise.
  cbn [fst snd default]. by destruct (process_ok host _).
Qed.

Lemma _extract_deb_name_version_Return host deb nv :
  (_extract_deb_name_version host deb).2 = Return nv →
  nv = provenance host deb ∧
  is_Some (check_output host (show_command deb)) ∧
  (_extract_deb_name_version host deb).1 = [CheckOutput (show_command deb)].
Proof.
  unfold _extract_deb_name_version, provenance, show_command.
  unfold mbind, M_bind, bind, try_except, subprocess_check_output, raise,
    mret, M_ret, ret.
  cbn [fst snd]. destruct (check_output host _) as [out|]; cbn [fst snd default];
    [|done].
  intros [= <-]. eauto.
Qed.

(** A run of the loop that ends normally unpacked every archive in turn,
    and its loop variable holds the last archive, if there was one. *)
Lemma unpack_stage_packages_loop_Return host install_path debs n pkg_path r :
  (unpack_stage_packages_loop host install_path debs n pkg_path).2 = Return r →
  (unpack_stage_packages_loop host install_path debs n pkg_path).1 =
    unpack_all host install_path debs n ∧
  r = match last debs with Some deb => Some deb | None => pkg_path end.
Proof.
  revert n pkg_path. induction debs as [|deb debs IH]; intros n pkg_path.
  { simpl. by intros [= <-]. }
  cbn [unpack_stage_packages_loop unpack_all]. unfold mbind, M_bind.
  intros (u & Hbody & Hrest & ->)%bind_Return_inv.
  apply IH in Hrest as [-> ->]. split.
  - f_equal. clear IH. unfold finally in *. cbn [fst snd] in *.
    apply bind_Return_inv in Hbody as ([] & _ & Hbody & ->).
    apply bind_Return_inv in Hbody as (u1 & Hx & Hbody & ->).
    apply _extract_deb_Return in Hx as [_ ->].
    apply bind_Return_inv in Hbody as (nv & Hnv & _ & ->).
    apply _extract_deb_name_version_Return in Hnv as (-> & _ & ->).
    reflexivity.
  - destruct debs as [|deb' debs]; [done|].
    change (last (deb :: deb' :: debs)) with (last (deb' :: debs)).
    by destruct (last (deb' :: debs)) eqn:Hlast;
      [|apply last_None in Hlast].
Qed.

(** A run of [unpack_stage_packages] that ends normally has handled
    every archive of the stage directory in turn, and the normalization
    pass is its last step when there was at least one archive. *)
Theorem unpack_stage_packages_spec
    (host : Host) (stage_packages_path install_path : string) :
  let debs := glob_deb host stage_packages_path in
  let c := unpack_stage_packages host stage_packages_path install_path in
  outcome_of c = Return tt →
  trace c =
    unpack_all host install_path debs 0 ++
    (if decide (debs = []) then [] else [Normalize install_path]) ∧
  Forall (λ e, is_normalize e = false) (unpack_all host install_path debs 0) ∧
  (Normalize install_path ∈ trace c ↔ debs ≠ []).
Proof.
  cbv zeta. unfold outcome_of, trace, unpack_stage_packages, mbind, M_bind.
  intros (r & Hloop & _ & ->)%bind_Return_inv.
  apply unpack_stage_packages_loop_Return in Hloop as [-> ->].
  assert (Hbody : ∀ debs n,
            Forall (λ e, is_normalize e = false) (unpack_all host install_path debs n)).
  { induction debs as [|deb debs IH]; intros n; [constructor|].
    cbn [unpack_all]. rewrite Forall_app. split; [by repeat constructor|apply IH]. }
  generalize (glob_deb host stage_packages_path). intros debs.
  destruct (last debs) as [deb|] eqn:Hlast; cbn [emit mret M_ret ret fst].
  - assert (Hne : debs ≠ []) by (by intros ->).
    rewrite decide_False by done.
    split; [done|]. split; [apply Hbody|]. split; [done|].
    intros _. apply elem_of_app. right. by apply list_elem_of_singleton.
  - apply last_None in Hlast as ->. rewrite decide_True by done.
    split; [done|]. split; [constructor|].
    split; [by intros ?%elem_of_nil | done].
Qed.

(** One turn of the loop of [unpack_stage_packages]. *)
Definition unpack_body (host : Host) (install_path : string) (n : nat)
    (deb : string) : M unit :=
  let extract_dir := mkdtemp host "deb-extract" (path_parent install_path) n in
  finally
    (emit (TempDirEnter extract_dir);;
     _extract_deb host deb extract_dir;;
     marked_name ← _extract_deb_name_version host deb;
     emit (MarkOriginStagePackage extract_dir marked_name);;
     emit (LinkOrCopyTree extract_dir install_path))
    (TempDirExit extract_dir).

Lemma unpack_stage_packages_loop_cons host install_path deb debs n pkg_path :
  unpack_stage_packages_loop host install_path (deb :: debs) n pkg_path =
  bind (unpack_body host install_path n deb)
    (λ _, unpack_stage_packages_loop host install_path debs (S n) (Some deb)).
Proof. reflexivity. Qed.

(** What one turn does, by the exit status of its two commands. *)
Lemma unpack_body_run host install_path n deb :
  let d := mkdtemp host "deb-extract" (path_parent install_path) n in
  unpack_body host install_path n deb =
    if process_ok host (extract_command deb d) then
      match check_output host (show_command deb) with
      | Some _ => (unpack_one host install_path n deb, Return tt)
      | None =>
          ([TempDirEnter d; ProcessRun (extract_command deb d) [];
            CheckOutput (show_command deb); TempDirExit d],
           Throw (UnpackError deb))
      end
    else
      ([TempDirEnter d; ProcessRun (extract_command deb d) []; TempDirExit d],
       Throw (UnpackError deb)).
Proof.
  cbv zeta.
  unfold unpack_body, unpack_one, provenance, _extract_deb,
    _extract_deb_name_version, extract_command, show_command.
  unfold mbind, M_bind, bind, finally, try_except, process_run,
    subprocess_check_output, emit, raise, mret, M_ret, ret.
  cbn [fst snd default].
  destruct (process_ok host _); cbn [fst snd app]; [|done].
  by destruct (check_output host _).
Qed.

(** The loop never runs the normalization pass, and it ends normally or
    with the [UnpackError] of one of the archives. *)
Lemma unpack_stage_packages_loop_total host install_path debs n pkg_path :
  Forall (λ e, is_normalize e = false)
    (unpack_stage_packages_loop host install_path debs n pkg_path).1 ∧
  ((∃ r, (unpack_stage_packages_loop host install_path debs n pkg_path).2 =
           Return r) ∨
   (∃ deb, deb ∈ debs ∧
      (unpack_stage_packages_loop host install_path debs n pkg_path).2 =
        Throw (UnpackError deb))).
Proof.
  revert n pkg_path. induction debs as [|deb debs IH]; intros n pkg_path.
  { split; [constructor|]. left. by eexists. }
  rewrite unpack_stage_packages_loop_cons, unpack_body_run. cbv zeta.
  destruct (IH (S n) (Some deb)) as [Hq Hout].
  unfold bind, unpack_one.
  destruct (process_ok host _); cbn [fst snd];
    [destruct (check_output host _); cbn [fst snd]|].
  - split; [rewrite Forall_app; split; [by repeat constructor|done]|].
    destruct Hout as [?|(deb' & Hin & ->)]; [by left|right].
    exists deb'. split; [by apply elem_of_cons; right|done].
  - split; [by repeat constructor|]. right. exists deb.
    split; [by apply elem_of_cons; left|done].
  - split; [by repeat constructor|]. right. exists deb.
    split; [by apply elem_of_cons; left|done].
Qed.

(** A run that does not end normally was stopped by the [UnpackError] of
    an archive and has not run the normalization pass. *)
Lemma unpack_stage_packages_aborted
    (host : Host) (stage_packages_path install_path : string) :
  let c := unpack_stage_packages host stage_packages_path install_path in
  outcome_of c ≠ Return tt →
  (∃ deb, deb ∈ glob_deb host stage_packages_path ∧
          outcome_of c = Throw (UnpackError deb)) ∧
  ∀ p, Normalize p ∉ trace c.
Proof.
  cbv zeta. unfold outcome_of, trace, unpack_stage_packages, mbind, M_bind.
  destruct (unpack_stage_packages_loop_total host install_path
              (glob_deb host stage_packages_path) 0 None) as [Hq Hout].
  unfold bind.
  destruct Hout as [[r Hr]|(deb & Hin & Hr)]; rewrite Hr; cbn [fst snd].
  - intros Hne. destruct Hne. by destruct r.
  - intros _. split; [by exists deb|].
    intros p Hp. rewrite Forall_forall in Hq. by apply Hq in Hp.
Qed.

(** When every extraction and every query succeeds the run ends
    normally. *)
Lemma unpack_stage_packages_returns
    (host : Host) (stage_packages_path install_path : string) :
  (∀ cmd, process_ok host cmd = true) →
  (∀ cmd, is_Some (check_output host cmd)) →
  outcome_of (unpack_stage_packages host stage_packages_path install_path) =
    Return tt.
Proof.
  intros Hok Hout.
  unfold outcome_of, unpack_stage_packages, mbind, M_bind.
  assert (Hloop : ∀ debs n pkg_path,
            ∃ r, (unpack_stage_packages_loop host install_path debs n pkg_path).2 =
                 Return r).
  { induction debs as [|deb debs IH]; intros n pkg_path; [by eexists|].
    rewrite unpack_stage_packages_loop_cons, unpack_body_run. cbv zeta.
    rewrite Hok. destruct (Hout (show_command deb)) as [out ->].
    unfold bind. cbn [fst snd]. apply IH. }
  destruct (Hloop (glob_deb host stage_packages_path) 0 None) as [r Hr].
  unfold bind. rewrite Hr. cbn [snd]. by destruct r.
Qed.

(** A stage directory with two archives and another file. *)
Definition stage_host : Host :=
  {| read_lines := read_lines quiet_host;
     iterdir := λ _, ["libbar_1.0_amd64.deb"; "notes.txt"; "libfoo_2.1_amd64.deb"];
     get_installed_version := get_installed_version quiet_host;
     mark_packages_fails := mark_packages_fails quiet_host;
     get_packages_marked_for_installation :=
       get_packages_marked_for_installation quiet_host;
     fetch_archives := fetch_archives quiet_host;
     process_ok := process_ok quiet_host;
     check_output := λ cmd,
       match last cmd with
       | Some "/stage/libbar_1.0_amd64.deb" => Some ("libbar=1.0" +:+ LF)
       | Some "/stage/libfoo_2.1_amd64.deb" => Some ("libfoo=2.1" +:+ LF)
       | _ => None
       end;
     mkdir_ok := mkdir_ok quiet_host;
     mkdtemp := mkdtemp quiet_host |}.

Lemma unpack_stage_packages_spec_witness :
  let c := unpack_stage_packages stage_host "/stage" "/parts/p/install" in
  outcome_of c = Return tt ∧
  trace c =
    [TempDirEnter "/parts/p/tmp0deb-extract";
     ProcessRun ["dpkg-deb"; "--extract"; "/stage/libbar_1.0_amd64.deb";
                 "/parts/p/tmp0deb-extract"] [];
     CheckOutput (show_command "/stage/libbar_1.0_amd64.deb");
     MarkOriginStagePackage "/parts/p/tmp0deb-extract" "libbar=1.0";
     LinkOrCopyTree "/parts/p/tmp0deb-extract" "/parts/p/install";
     TempDirExit "/parts/p/tmp0deb-extract";
     TempDirEnter "/parts/p/tmp1deb-extract";
     ProcessRun ["dpkg-deb"; "--extract"; "/stage/libfoo_2.1_amd64.deb";
                 "/parts/p/tmp1deb-extract"] [];
     CheckOutput (show_command "/stage/libfoo_2.1_amd64.deb");
     MarkOriginStagePackage "/parts/p/tmp1deb-extract" "libfoo=2.1";
     LinkOrCopyTree "/parts/p/tmp1deb-extract" "/parts/p/install";
     TempDirExit "/parts/p/tmp1deb-extract";
     Normalize "/parts/p/install"].
Proof.
  cbv zeta.
  assert (Hret : outcome_of
            (unpack_stage_packages stage_host "/stage" "/parts/p/install") =
            Return tt) by (vm_compute; reflexivity).
  split; [exact Hret|].
  etrans.
  - exact (proj1 (unpack_stage_packages_spec stage_host "/stage"
                    "/parts/p/install" Hret)).
  - vm_compute. reflexivity.
Defined.

End DebProofs.

(** * Properties of the overlay manager *)
Module OverlayProofs.
Import Py Overlay.

(** In a build order without repetition, the parts before the [k]-th one
    are the first [k]. *)
Lemma parts_before_lookup (order : list Part) (k : nat) (part : Part) :
  NoDup order → order !! k = Some part → parts_before order part = take k order.
Proof.
  revert k. induction order as [|p order IH]; intros k Hnd Hk; [done|].
  apply NoDup_cons in Hnd as [Hp Hnd]. simpl.
  destruct k as [|k]; simpl in Hk.
  - injection Hk as ->. by rewrite decide_True.
  - rewrite decide_False.
    + simpl. f_equal. by apply IH.
    + intros ->. apply Hp. by apply list_elem_of_lookup_2 in Hk.
Qed.

(** The chain lists the earlier layers from the most recently built one
    down to the first, then the base. *)
Lemma chain_lookup (info : ProjectInfo) (order : list Part) (k i : nat)
    (p : Part) (base : string) :
  (k ≤ List.length order)%nat → (i < k)%nat → order !! (k - S i) = Some p →
  (reverse (part_layer_dir info <$> take k order) ++ [base]) !! i =
    Some (part_layer_dir info p).
Proof.
  intros Hk Hi Hp.
  assert (Hlen : List.length (part_layer_dir info <$> take k order) = k).
  { by rewrite length_fmap, length_take_le. }
  rewrite lookup_app_l by (rewrite length_reverse; lia).
  rewrite reverse_lookup by lia.
  rewrite Hlen, list_lookup_fmap, lookup_take_lt by lia.
  by rewrite Hp.
Qed.

(** C7. With a base layer configured and nothing mounted, mounting the
    layer of the part at position [k] of the build order, without the
    package cache, issues one mount whose lower directories are the layers
    of the [k] parts built before it, the most recently built first, then
    the base; the upper directory is the layer of the part itself. *)
Theorem mount_layer_chain (om : OverlayManager) (k : nat) (part : Part)
    (base : string) :
  NoDup (part_list om) →
  part_list om !! k = Some part →
  base_layer_dir om = Some base →
  (∀ fs, overlay_fs om = Some fs → mountpoint fs = None) →
  let info := project_info om in
  let chain := reverse (part_layer_dir info <$> take k (part_list om)) ++ [base] in
  let fs :=
    {| lower_dirs := chain; upper_dir := part_layer_dir info part;
       work_dir := overlay_work_dir info;
       mountpoint := Some (overlay_mount_dir info) |} in
  mount_layer om part false =
    ([Mount ["overlay"; overlay_mount_dir info; "-toverlay";
             "-olowerdir=" +:+ join ":" chain +:+
             ",upperdir=" +:+ part_layer_dir info part +:+
             ",workdir=" +:+ overlay_work_dir info]],
     Ok {| project_info := info; part_list := part_list om;
           base_layer_dir := Some base; overlay_fs := Some fs |}) ∧
  (∀ i p, (i < k)%nat → part_list om !! (k - S i) = Some p →
          chain !! i = Some (part_layer_dir info p)) ∧
  chain !! k = Some base.
Proof.
  intros Hnd Hk Hbase Hfree info chain fs. subst info chain fs.
  assert (Hle : (k ≤ List.length (part_list om))%nat).
  { apply lookup_lt_Some in Hk. lia. }
  split; [|split].
  - unfold mount_layer. rewrite Hbase.
    rewrite (parts_before_lookup _ _ _ Hnd Hk).
    unfold lower_dir_chain, with_fs, OverlayFS_mount, configure_fs, mount_options.
    cbn [app lower_dirs upper_dir work_dir mountpoint].
    assert (Hmp : (overlay_fs om ≫= λ fs : OverlayFS, mountpoint fs) = None).
    { destruct (overlay_fs om) as [fs|] eqn:Hfs; [|done]. by apply Hfree. }
    rewrite Hmp. cbn [fst snd]. by rewrite Hbase.
  - intros i p Hi Hp. by apply chain_lookup.
  - rewrite lookup_app_r; rewrite length_reverse, length_fmap, length_take_le;
      try lia.
    by rewrite Nat.sub_diag.
Qed.

(** C8. Without a base layer every mount request fails with the state
    error and issues no mount call, whatever the part, the package cache
    flag and the state of the manager. *)
Theorem mount_without_base_layer (om : OverlayManager) (part : Part)
    (pkg_cache : bool) :
  base_layer_dir om = None →
  mount_layer om part pkg_cache =
    ([], Raise (RuntimeError "request to mount overlay without a base layer")) ∧
  mount_pkg_cache om =
    ([], Raise (RuntimeError
                  "request to mount the overlay package cache without a base layer")).
Proof. intros Hbase. unfold mount_layer, mount_pkg_cache. by rewrite Hbase. Qed.

(** The fixture of test_overlay_manager.py: parts p1 and p2, the base
    layer base_dir, the working area in [new_dir]. *)
Definition p1 : Part := {| part_name := "p1" |}.
Definition p2 : Part := {| part_name := "p2" |}.

Definition fixture (new_dir : string) (base : option string) : OverlayManager :=
  {| project_info := {| project_work_dir := new_dir |};
     part_list := [p1; p2];
     base_layer_dir := base;
     overlay_fs := None |}.

(** test_mount_layer *)
Lemma mount_layer_chain_witness :
  (mount_layer (fixture "/new_dir" (Some "base_dir")) p2 false).1 =
    [Mount ["overlay"; "/new_dir/overlay/overlay"; "-toverlay";
            "-olowerdir=/new_dir/parts/p1/layer:base_dir," +:+
            "upperdir=/new_dir/parts/p2/layer," +:+
            "workdir=/new_dir/overlay/work"]].
Proof.
  destruct (mount_layer_chain (fixture "/new_dir" (Some "base_dir")) 1 p2
              "base_dir") as [Hrun _].
  - unfold fixture; simpl. apply NoDup_cons. split.
    + rewrite list_elem_of_singleton. discriminate.
    + apply NoDup_singleton.
  - reflexivity.
  - reflexivity.
  - intros fs Hfs. discriminate Hfs.
  - rewrite Hrun. reflexivity.
Defined.

(** test_mount_layer_no_base and test_mount_pkg_cache_no_base *)
Lemma mount_without_base_layer_witness :
  mount_layer (fixture "/new_dir" None) p1 false =
    ([], Raise (RuntimeError "request to mount overlay without a base layer")) ∧
  mount_pkg_cache (fixture "/new_dir" None) =
    ([], Raise (RuntimeError
                  "request to mount the overlay package cache without a base layer")).
Proof. apply (mount_without_base_layer (fixture "/new_dir" None) p1 false). reflexivity. Defined.

(** test_mount_layer_single_part, test_mount_layer_pkg_cache and
    test_mount_pkg_cache *)
Example test_mount_layer_single_part :
  (mount_layer (fixture "/new_dir" (Some "base_dir")) p1 false).1 =
    [Mount ["overlay"; "/new_dir/overlay/overlay"; "-toverlay";
            "-olowerdir=base_dir,upperdir=/new_dir/parts/p1/layer," +:+
            "workdir=/new_dir/overlay/work"]].
Proof. reflexivity. Qed.

Example test_mount_layer_pkg_cache :
  (mount_layer (fixture "/new_dir" (Some "base_dir")) p1 true).1 =
    [Mount ["overlay"; "/new_dir/overlay/overlay"; "-toverlay";
            "-olowerdir=/new_dir/overlay/packages:base_dir," +:+
            "upperdir=/new_dir/parts/p1/layer," +:+
            "workdir=/new_dir/overlay/work"]].
Proof. reflexivity. Qed.

Example test_mount_pkg_cache :
  (mount_pkg_cache (fixture "/new_dir" (Some "base_dir"))).1 =
    [Mount ["overlay"; "/new_dir/overlay/overlay"; "-toverlay";
            "-olowerdir=base_dir,upperdir=/new_dir/overlay/packages," +:+
            "workdir=/new_dir/overlay/work"]].
Proof. reflexivity. Qed.

End OverlayProofs.

(** * Further properties of deb.py *)
Module DebExtras.
Import Py Eff Deb DebProofs.

#[local] Set Warnings "-clear-no-such-hyp".

(** ** Fetching stage packages *)

Definition archive_name_version (a : string * string * string) : string :=
  name_version (a.1.1, a.1.2).

(** The events of the loop over the fetched archives. *)
Definition link_events (stage_packages_path : string)
    (archives : list (string * string * string)) : list event :=
  a ← archives;
  [LogDebug "Extracting stage package: %s" [a.1.1];
   LinkOrCopy a.2 (path_div stage_packages_path (path_name a.2))].

Lemma fetch_stage_packages_loop_run stage_packages_path archives installed :
  fetch_stage_packages_loop stage_packages_path archives installed =
    (link_events stage_packages_path archives,
     Return (installed ∪ list_to_set (archive_name_version <$> archives))).
Proof.
  revert installed. induction archives as [|[[n v] p] archives IH];
    intros installed.
  { simpl. unfold mret, M_ret, ret. do 2 f_equal. set_solver. }
  cbn [fetch_stage_packages_loop]. unfold mbind, M_bind, bind, emit.
  cbn [fst snd]. rewrite IH. cbn [fst snd].
  unfold link_events. rewrite bind_cons. fold (link_events stage_packages_path archives).
  cbn [app fst snd]. do 2 f_equal.
  rewrite fmap_cons, list_to_set_cons. unfold archive_name_version at 2.
  cbn [fst snd]. set_solver.
Qed.

Section Fetch.
Variable from_unparsed : string → DebPackage.

Local Abbreviation fetch_stage_packages :=
  (fetch_stage_packages from_unparsed).

(** What [fetch_stage_packages] does on a non-empty request. *)
Lemma fetch_stage_packages_run
    (host : Host) (cache_dir stage_packages_path base target_arch : string)
    (n : string) (ns : list string) (list_only : bool) :
  let names : gset string := list_to_set (n :: ns) in
  let deb_cache_dir := path_div cache_dir "download" in
  let cfg : apt_cfg := Some (path_div cache_dir "stage-packages", target_arch) in
  let log := LogDebug "Requested stage-packages: %s" (sorted (n :: ns)) in
  fetch_stage_packages host cache_dir (n :: ns) stage_packages_path base
    target_arch list_only =
  match _get_filtered_stage_package_names from_unparsed host base
          (from_unparsed <$> n :: ns) with
  | Raise e => ([log], Throw e)
  | Ok filtered =>
      let pre1 :=
        log :: (if list_only then [] else [Mkdir stage_packages_path false true]) in
      if negb list_only && negb (mkdir_ok host stage_packages_path) then
        (pre1, Throw (OSError stage_packages_path))
      else if negb (mkdir_ok host deb_cache_dir) then
        (pre1 ++ [Mkdir deb_cache_dir true true], Throw (OSError deb_cache_dir))
      else
        let pre2 :=
          pre1 ++ [Mkdir deb_cache_dir true true; AptEnter cfg;
                   AptMarkPackages names] in
        match mark_packages_fails host cfg names with
        | Some m => (pre2 ++ [AptExit cfg], Throw (PackageNotFound m))
        | None =>
            if list_only then
              (pre2 ++ [AptUnmarkPackages filtered; AptGetMarked; AptExit cfg],
               Return (sorted (elements (list_to_set (C := gset string)
                  (name_version <$>
                     sorted_tuples
                       (get_packages_marked_for_installation host cfg names
                          filtered))))))
            else
              let archives := fetch_archives host cfg names filtered deb_cache_dir in
              (pre2 ++ [AptUnmarkPackages filtered; AptFetchArchives deb_cache_dir]
                 ++ link_events stage_packages_path archives ++ [AptExit cfg],
               Return (sorted (elements (list_to_set (C := gset string)
                  (archive_name_version <$> archives)))))
        end
  end.
Proof.
  cbv zeta. unfold Deb.fetch_stage_packages.
  unfold mbind at 1, M_bind at 1, bind at 1, emit at 1. cbn [fst snd].
  destruct (_get_filtered_stage_package_names _ _ _ _) as [filtered|e];
    [|reflexivity].
  unfold get_cache_dirs, with_AptCache, finally, path_mkdir, apt_mark_packages,
    apt_unmark_packages, apt_get_packages_marked_for_installation,
    apt_fetch_archives, lift.
  unfold mbind, M_bind, mret, M_ret, bind, ret, emit.
  cbn [fst snd app].
  destruct list_only; cbn [negb andb fst snd app].
  - destruct (mkdir_ok host (path_div cache_dir "download"));
      cbn [negb fst snd app]; [|done].
    by destruct (mark_packages_fails host _ _).
  - destruct (mkdir_ok host stage_packages_path); cbn [negb fst snd app]; [|done].
    destruct (mkdir_ok host (path_div cache_dir "download"));
      cbn [negb fst snd app]; [|done].
    destruct (mark_packages_fails host _ _); cbn [fst snd app]; [done|].
    rewrite fetch_stage_packages_loop_run. cbn [fst snd app].
    rewrite union_empty_l_L, app_nil_r, <-?app_assoc. done.
Qed.

(** The returned list of a sorted set: ascending, without repetition,
    with the elements of the set. *)
Lemma sorted_elements (S : gset string) :
  Sorted String.le (sorted (elements S)) ∧ NoDup (sorted (elements S)) ∧
  ∀ x, x ∈ sorted (elements S) ↔ x ∈ S.
Proof.
  destruct (sorted_spec (elements S)) as [Hs Hp]. split; [done|]. split.
  - rewrite Hp. apply NoDup_elements.
  - intros x. by rewrite Hp, elem_of_elements.
Qed.

(** X1. Whatever the request and the mode, the list that
    [fetch_stage_packages] returns is in ascending order and has no
    repeated entry. *)
Theorem fetch_stage_packages_sorted_nodup
    (host : Host) (cache_dir stage_packages_path base target_arch : string)
    (package_names : list string) (list_only : bool) (l : list string) :
  outcome_of (fetch_stage_packages host cache_dir package_names
                stage_packages_path base target_arch list_only) = Return l →
  Sorted String.le l ∧ NoDup l.
Proof.
  destruct package_names as [|n ns].
  { intros [= <-]. split; constructor. }
  rewrite fetch_stage_packages_run. cbv zeta. unfold outcome_of.
  destruct (_get_filtered_stage_package_names _ _ _ _) as [filtered|e];
    [|done].
  destruct (negb list_only && negb (mkdir_ok host stage_packages_path));
    [done|].
  destruct (negb (mkdir_ok host (path_div cache_dir "download"))); [done|].
  destruct (mark_packages_fails host _ _); [done|].
  destruct list_only; cbn [snd]; intros [= <-];
    (split; [apply sorted_elements | apply sorted_elements]).
Qed.

(** X2. When a run that stages (not list-only) returns, it has asked
    the apt cache to fetch with the filtered names unmarked, it has
    linked every fetched archive into the stage directory under its own
    file name, and the list it returns holds exactly the [name=version]
    of the fetched archives; its last step closed the apt cache. *)
Theorem fetch_stage_packages_stages_the_archives
    (host : Host) (cache_dir stage_packages_path base target_arch : string)
    (n : string) (ns : list string) (filtered : gset string)
    (l : list string) :
  let names : gset string := list_to_set (n :: ns) in
  let cfg : apt_cfg := Some (path_div cache_dir "stage-packages", target_arch) in
  let archives :=
    fetch_archives host cfg names filtered (path_div cache_dir "download") in
  let c := fetch_stage_packages host cache_dir (n :: ns) stage_packages_path
             base target_arch false in
  _get_filtered_stage_package_names from_unparsed host base
    (from_unparsed <$> n :: ns) = Ok filtered →
  outcome_of c = Return l →
  (∀ x, x ∈ l ↔ ∃ a, a ∈ archives ∧ x = archive_name_version a) ∧
  (∀ a, a ∈ archives →
        LinkOrCopy a.2 (path_div stage_packages_path (path_name a.2)) ∈ trace c) ∧
  AptUnmarkPackages filtered ∈ trace c ∧
  AptFetchArchives (path_div cache_dir "download") ∈ trace c ∧
  last (trace c) = Some (AptExit cfg).
Proof.
  cbv zeta. intros Hf.
  rewrite fetch_stage_packages_run. cbv zeta. rewrite Hf.
  unfold outcome_of, trace. cbn [negb andb].
  destruct (negb (mkdir_ok host stage_packages_path)); [done|].
  destruct (negb (mkdir_ok host (path_div cache_dir "download"))); [done|].
  destruct (mark_packages_fails host _ _); [done|].
  cbn [fst snd]. intros [= <-]. split; [|split; [|split; [|split]]].
  - intros x.
    rewrite (proj2 (proj2 (sorted_elements _))), elem_of_list_to_set,
      list_elem_of_fmap.
    naive_solver.
  - intros a Ha. rewrite !elem_of_app. right. right. left.
    unfold link_events. apply list_elem_of_bind. exists a. split; [|done].
    rewrite !elem_of_cons. auto.
  - rewrite !elem_of_app. right. left. rewrite !elem_of_cons. auto.
  - rewrite !elem_of_app. right. left. rewrite !elem_of_cons. auto.
  - by rewrite !app_assoc, last_snoc.
Qed.

(** What a list-only run may do: write log records, use the apt cache,
    and create the download directory of the cache, with its parents. *)
Definition list_only_allows (cache_dir : string) (e : event) : bool :=
  match e with
  | LogDebug _ _ | AptEnter _ | AptExit _ | AptMarkPackages _
  | AptUnmarkPackages _ | AptGetMarked => true
  | Mkdir p parents _ => String.eqb p (path_div cache_dir "download") && parents
  | _ => false
  end.

(** X3. In list-only mode [fetch_stage_packages] never creates the stage
    directory, fetches no archive, links nothing and runs no command; the
    only thing it may write is the download directory of the cache. *)
Theorem fetch_stage_packages_list_only_stages_nothing
    (host : Host) (cache_dir stage_packages_path base target_arch : string)
    (package_names : list string) :
  Forall (λ e, list_only_allows cache_dir e = true)
    (trace (fetch_stage_packages host cache_dir package_names
              stage_packages_path base target_arch true)).
Proof.
  destruct package_names as [|n ns]; [by repeat constructor|].
  rewrite fetch_stage_packages_run. cbv zeta. unfold trace.
  assert (Hd : list_only_allows cache_dir
                 (Mkdir (path_div cache_dir "download") true true) = true).
  { unfold list_only_allows. by rewrite String.eqb_refl. }
  destruct (_get_filtered_stage_package_names _ _ _ _) as [filtered|e];
    [|by repeat constructor].
  cbn [negb andb app].
  destruct (negb (mkdir_ok host (path_div cache_dir "download"))); cbn [fst app];
    [by repeat constructor|].
  destruct (mark_packages_fails host _ _); cbn [fst app];
    by repeat constructor.
Qed.

(** X4. When the index does not know a requested name,
    [fetch_stage_packages] lets the [PackageNotFound] of the apt cache
    through as it is; the cache is closed, and nothing was unmarked,
    fetched or linked. *)
Theorem fetch_stage_packages_unknown_package
    (host : Host) (cache_dir stage_packages_path base target_arch : string)
    (n : string) (ns : list string) (list_only : bool)
    (filtered : gset string) (missing : string) :
  let cfg : apt_cfg := Some (path_div cache_dir "stage-packages", target_arch) in
  let c := fetch_stage_packages host cache_dir (n :: ns) stage_packages_path
             base target_arch list_only in
  _get_filtered_stage_package_names from_unparsed host base
    (from_unparsed <$> n :: ns) = Ok filtered →
  (∀ p, mkdir_ok host p = true) →
  mark_packages_fails host cfg (list_to_set (n :: ns)) = Some missing →
  outcome_of c = Throw (PackageNotFound missing) ∧
  last (trace c) = Some (AptExit cfg) ∧
  Forall (λ e, match e with
               | AptUnmarkPackages _ | AptFetchArchives _ | AptGetMarked
               | LinkOrCopy _ _ => False
               | _ => True
               end) (trace c).
Proof.
  cbv zeta. intros Hf Hmk Hmark.
  rewrite fetch_stage_packages_run. cbv zeta.
  rewrite Hf, !Hmk, Hmark. rewrite andb_false_r. cbn [negb].
  unfold outcome_of, trace. cbn [fst snd]. split; [done|]. split.
  - apply last_snoc.
  - destruct list_only; cbn [app]; by repeat constructor.
Qed.

Lemma second_fields_spec (lines : list string) :
  match second_fields lines with
  | Ok fields => Forall2 (λ line field, split line !! 1 = Some field) lines fields
  | Raise e => e = IndexError ∧ Exists (λ line, split line !! 1 = None) lines
  end.
Proof.
  induction lines as [|line lines IH]; simpl; [constructor|].
  unfold getitem. destruct (split line !! 1) as [field|] eqn:Hf; simpl.
  - destruct (second_fields lines) as [fields|e]; simpl.
    + by constructor.
    + destruct IH as [-> IH]. split; [done|]. by apply Exists_cons_tl.
  - split; [done|]. by apply Exists_cons_hd.
Qed.

(** X5. For a base outside the legacy set whose listing exists,
    [get_packages_in_base] raises exactly when some line that starts with
    ["ii "] has no second field, and what it raises is [IndexError].  In
    that case [fetch_stage_packages], on a non-empty request, raises the
    [IndexError] after its log record and before it creates a directory
    or opens the apt cache. *)
Theorem get_packages_in_base_malformed_listing
    (host : Host) (base : string) (file : list string) :
  base ∉ legacy_bases →
  read_lines host (_get_dpkg_list_path base) = Some file →
  let malformed :=
    Exists (λ line, startswith line "ii " = true ∧ split line !! 1 = None) file in
  (get_packages_in_base from_unparsed host base = Raise IndexError ↔ malformed) ∧
  (∀ e, get_packages_in_base from_unparsed host base = Raise e → e = IndexError) ∧
  (malformed →
   ∀ cache_dir stage_packages_path target_arch n ns list_only,
     fetch_stage_packages host cache_dir (n :: ns) stage_packages_path base
       target_arch list_only =
     ([LogDebug "Requested stage-packages: %s" (sorted (n :: ns))],
      Throw IndexError)).
Proof.
  intros Hbase Hfile malformed.
  pose proof (proj2 (proj2 (get_packages_in_base_spec from_unparsed host host
                              base file)) Hbase Hfile) as Hget.
  assert (Hmal : malformed ↔
            Exists (λ line, split line !! 1 = None)
              (List.filter is_installed_line file)).
  { unfold malformed. rewrite !Exists_exists. unfold is_installed_line.
    split.
    - intros (line & Hin & Hii & Hno). exists line. split; [|done].
      apply list_elem_of_In, filter_In. by rewrite <-list_elem_of_In.
    - intros (line & Hin & Hno). exists line.
      apply list_elem_of_In, filter_In in Hin as [Hin Hii].
      by rewrite <-list_elem_of_In in Hin. }
  pose proof (second_fields_spec (List.filter is_installed_line file)) as Hsf.
  unfold installed_names in Hget.
  assert (Hiff : get_packages_in_base from_unparsed host base = Raise IndexError
                 ↔ malformed).
  { rewrite Hget, Hmal.
    destruct (second_fields _) as [fields|e]; simpl.
    - split; [done|]. intros Hex. exfalso.
      apply Exists_exists in Hex as (line & Hin & Hno).
      apply list_elem_of_lookup in Hin as [i Hi].
      destruct (Forall2_lookup_l _ _ _ _ _ Hsf Hi) as (field & _ & Hsome).
      congruence.
    - by destruct Hsf as [-> Hex]. }
  split; [done|]. split.
  - intros e. rewrite Hget. destruct (second_fields _) as [fields|e']; simpl;
      [done|]. destruct Hsf as [-> _]. by intros [= <-].
  - intros Hm cache_dir stage_packages_path target_arch n ns list_only.
    apply Hiff in Hm. rewrite fetch_stage_packages_run. cbv zeta.
    unfold _get_filtered_stage_package_names. by rewrite Hm.
Qed.

End Fetch.

(** ** Installing build packages *)

(** The opening and closing of apt caches in a trace. *)
Definition apt_sessions (t : list event) : list event :=
  List.filter
    (λ e, match e with AptEnter _ | AptExit _ => true | _ => false end) t.

Lemma apt_sessions_app t1 t2 :
  apt_sessions (t1 ++ t2) = apt_sessions t1 ++ apt_sessions t2.
Proof. apply List.filter_app. Qed.

Lemma apt_sessions_none (t : list event) :
  Forall (λ e, match e with AptEnter _ | AptExit _ => False | _ => True end) t →
  apt_sessions t = [].
Proof.
  induction 1 as [|e t He _ IH]; [done|]. simpl. rewrite IH. by destruct e.
Qed.

Section InstallMore.
Variable get_pkg_name_parts : string → string * option string.

Local Abbreviation install_build_packages :=
  (install_build_packages get_pkg_name_parts).
Local Abbreviation check_loop :=
  (_check_if_all_packages_installed_loop get_pkg_name_parts).
Local Abbreviation satisfied := (satisfied get_pkg_name_parts).
Local Abbreviation all_installed := (all_installed get_pkg_name_parts).
Local Abbreviation versionless := (versionless get_pkg_name_parts).

(** The two ways the check ends: every package was asked for and is
    satisfied, or the asking stopped at the first one that is not. *)
Definition check_result (host : Host) (package_names queried : list string)
    (b : bool) : Prop :=
  (b = true ∧ queried = package_names ∧ all_installed host package_names) ∨
  (b = false ∧
   ∃ before p rest,
     package_names = before ++ p :: rest ∧ queried = before ++ [p] ∧
     Forall (satisfied host) before ∧ ¬ satisfied host p).

Lemma check_loop_stops host package_names :
  ∃ queried b,
    check_loop host package_names =
      (AptGetInstalledVersion <$> versionless queried, Return b) ∧
    check_result host package_names queried b.
Proof.
  induction package_names as [|package rest (queried & b & IH & Hres)].
  { exists [], true. split; [done|]. left. by repeat split; try constructor. }
  assert (Hstep :
    (satisfied host package ∧
     check_loop host (package :: rest) =
       (AptGetInstalledVersion (get_pkg_name_parts package).1 ::
          (check_loop host rest).1, (check_loop host rest).2)) ∨
    (¬ satisfied host package ∧
     check_loop host (package :: rest) =
       ([AptGetInstalledVersion (get_pkg_name_parts package).1], Return false))).
  { cbn [_check_if_all_packages_installed_loop].
    unfold DebProofs.satisfied.
    destruct (get_pkg_name_parts package) as [pkg_name pkg_version]; simpl.
    unfold mbind, M_bind, bind, apt_get_installed_version, mret, M_ret, ret;
      simpl.
    destruct (get_installed_version host pkg_name) as [iv|].
    - destruct pkg_version as [pv|].
      + destruct (String.eqb_spec iv pv) as [->|Hne]; simpl.
        * left. split; [|by destruct (check_loop host rest) as [? []]].
          exists pv. split; [done|]. by intros ? [= ->].
        * right. split; [|done].
          intros (iv' & [= <-] & Hpin). destruct Hne. by apply Hpin.
      + left. split; [|by destruct (check_loop host rest) as [? []]].
        exists iv. split; [done|]. by intros ? [=].
    - right. split; [|by destruct pkg_version].
      by intros (iv' & [=] & _). }
  destruct Hstep as [[Hsat ->]|[Hsat ->]]; rewrite ?IH; cbn [fst snd].
  - exists (package :: queried), b. split; [done|].
    destruct Hres as [(-> & -> & Hall)|(-> & before & p & rest' & -> & -> & Hb & Hp)].
    + left. split; [done|]. split; [done|]. by constructor.
    + right. split; [done|]. exists (package :: before), p, rest'.
      split; [done|]. split; [done|]. split; [by constructor|done].
  - exists [package], false. split; [done|]. right. split; [done|].
    exists [], package, rest. by repeat split; try constructor.
Qed.

(** X6. [_check_if_all_packages_installed] opens the apt cache and
    always closes it.  It returns [True] exactly when every requested
    package is installed at the version asked for; it asks for the
    packages in the order given and stops at the first one that is not
    satisfied. *)
Theorem check_if_all_packages_installed_spec
    (host : Host) (package_names : list string) :
  ∃ queried b,
    _check_if_all_packages_installed get_pkg_name_parts host package_names =
      (AptEnter None :: (AptGetInstalledVersion <$> versionless queried) ++
         [AptExit None],
       Return b) ∧
    check_result host package_names queried b ∧
    (b = true ↔ all_installed host package_names).
Proof.
  destruct (check_loop_stops host package_names) as (queried & b & Hloop & Hres).
  exists queried, b. split; [|split; [done|]].
  - unfold _check_if_all_packages_installed, with_AptCache, finally, bind, emit.
    cbn [fst snd]. by rewrite Hloop.
  - destruct Hres as [(-> & _ & Hall)|(-> & before & p & rest & -> & _ & _ & Hp)].
    + done.
    + split; [done|]. intros Hall. exfalso. apply Hp.
      apply Forall_app in Hall as [_ Hall]. by apply Forall_cons in Hall as [? _].
Qed.

Lemma sorted_Permutation (l l' : list string) : l ≡ₚ l' → sorted l = sorted l'.
Proof.
  intros Hp. apply (Sorted_unique String.le).
  - apply sorted_spec.
  - apply sorted_spec.
  - by rewrite !(proj2 (sorted_spec _)).
Qed.

(** X7. [install_build_packages] does not depend on the order in which
    the packages are requested: two requests that are permutations of
    one another give the same events and the same result. *)
Theorem install_build_packages_order_irrelevant
    (host : Host) (package_names package_names' : list string)
    (list_only : bool) :
  package_names ≡ₚ package_names' →
  install_build_packages host package_names list_only =
  install_build_packages host package_names' list_only.
Proof.
  intros Hp. pose proof (sorted_Permutation _ _ Hp) as Hs.
  destruct package_names as [|n ns], package_names' as [|n' ns'].
  - done.
  - by apply Permutation_nil_cons in Hp.
  - symmetry in Hp. by apply Permutation_nil_cons in Hp.
  - unfold Deb.install_build_packages. by rewrite Hs.
Qed.

(** X8. When the index does not know a requested name,
    [install_build_packages] raises [BuildPackageNotFound] with that
    name, in either mode; it has run no command and written nothing, and
    the apt cache is closed. *)
Theorem install_build_packages_unknown_package
    (host : Host) (n : string) (ns : list string) (list_only : bool)
    (missing : string) :
  let c := install_build_packages host (n :: ns) list_only in
  mark_packages_fails host None (list_to_set (n :: ns)) = Some missing →
  outcome_of c = Throw (BuildPackageNotFound missing) ∧
  Forall (λ e, mutates_host e = false) (trace c) ∧
  last (trace c) = Some (AptExit None).
Proof.
  cbv zeta. intros Hmark.
  destruct (install_build_packages_run get_pkg_name_parts host n ns list_only)
    as (k & b & _ & ->).
  cbv zeta.
  assert (Hset : list_to_set (C := gset string) (sorted (n :: ns)) =
                 list_to_set (n :: ns)).
  { apply list_to_set_perm_L, sorted_spec. }
  rewrite Hset, Hmark. unfold outcome_of, trace. cbn [fst snd].
  split; [done|]. split; [|apply last_snoc].
  rewrite Forall_app. split; [apply resolve_prefix_quiet|by repeat constructor].
Qed.

(** X9. On a non-empty request the install command is run exactly when
    the mode is not list-only, some requested package is not installed
    at the required version, and the index knows every requested name. *)
Theorem install_command_runs_iff
    (host : Host) (n : string) (ns : list string) (list_only : bool) :
  let c := install_build_packages host (n :: ns) list_only in
  (∃ args env, ProcessRun (apt_install_command ++ args) env ∈ trace c) ↔
  list_only = false ∧ ¬ all_installed host (n :: ns) ∧
  mark_packages_fails host None (list_to_set (n :: ns)) = None.
Proof.
  cbv zeta.
  destruct (install_build_packages_run get_pkg_name_parts host n ns list_only)
    as (k & b & Hb & ->).
  cbv zeta.
  assert (Hset : list_to_set (C := gset string) (sorted (n :: ns)) =
                 list_to_set (n :: ns)).
  { apply list_to_set_perm_L, sorted_spec. }
  rewrite Hset. unfold trace.
  assert (Hplanned : ∀ tail,
    Forall (λ e, mutates_host e = false)
      (resolve_prefix get_pkg_name_parts (sorted (n :: ns)) k ++ tail) ↔
    Forall (λ e, mutates_host e = false) tail).
  { intros tail. rewrite Forall_app. split; [by intros [_ ?]|].
    split; [apply resolve_prefix_quiet|done]. }
  assert (Hquiet : ∀ t, Forall (λ e, mutates_host e = false) t →
            ¬ ∃ args env, ProcessRun (apt_install_command ++ args) env ∈ t).
  { intros t Hq (args & env & Hin). by apply (quiet_no_command _ Hq) in Hin. }
  destruct (mark_packages_fails host None _) as [m|]; cbn [fst].
  { split; [|by intros (_ & _ & ?)]. intros Hex. exfalso. revert Hex.
    apply Hquiet, Hplanned. by repeat constructor. }
  destruct list_only; cbn [fst].
  { split; [|by intros (? & _)]. intros Hex. exfalso. revert Hex.
    apply Hquiet, Hplanned. by repeat constructor. }
  destruct b; cbn [fst].
  { split; [|intros (_ & Hno & _); destruct Hno; by apply Hb].
    intros Hex. exfalso. revert Hex. apply Hquiet.
    rewrite <-app_assoc. apply Hplanned. by repeat constructor. }
  split.
  - intros _. split; [done|]. split; [|done]. intros Hall.
    by apply Hb in Hall.
  - intros _. eexists _, install_env. rewrite elem_of_app. right.
    rewrite _install_packages_run. cbv zeta.
    destruct (process_ok host (apt_install_command ++ _)); cbn [fst];
      rewrite ?elem_of_app, !elem_of_cons; auto.
Qed.

(** X10. [install_build_packages] closes every apt cache it opens, on
    every path: on a non-empty request it opens the cache of the host
    twice, once to check what is installed and once to resolve the
    request, and each is closed before anything else happens, also when
    the resolution or the install fails. *)
Theorem install_build_packages_closes_the_cache
    (host : Host) (package_names : list string) (list_only : bool) :
  apt_sessions (trace (install_build_packages host package_names list_only)) =
    match package_names with
    | [] => []
    | _ :: _ => [AptEnter None; AptExit None; AptEnter None; AptExit None]
    end.
Proof.
  destruct package_names as [|n ns]; [done|].
  destruct (install_build_packages_run get_pkg_name_parts host n ns list_only)
    as (k & b & _ & ->).
  cbv zeta. unfold trace.
  assert (Hprefix :
    apt_sessions (resolve_prefix get_pkg_name_parts (sorted (n :: ns)) k) =
    [AptEnter None; AptExit None; AptEnter None]).
  { unfold resolve_prefix. rewrite !apt_sessions_app.
    rewrite (apt_sessions_none (_ <$> _)); [done|].
    apply Forall_fmap. by apply Forall_true. }
  destruct (mark_packages_fails host None _) as [m|]; cbn [fst].
  { by rewrite apt_sessions_app, Hprefix. }
  destruct list_only; cbn [fst].
  { by rewrite apt_sessions_app, Hprefix. }
  destruct b; cbn [fst].
  { by rewrite !apt_sessions_app, Hprefix. }
  rewrite !apt_sessions_app, Hprefix, _install_packages_run. cbv zeta.
  destruct (process_ok host (apt_install_command ++ _)); cbn [fst];
    [destruct (process_ok host (apt_mark_command ++ _))|]; done.
Qed.

End InstallMore.

(** ** Unpacking stage packages *)

Definition scratch_dir (host : Host) (install_path : string) (i : nat) : string :=
  mkdtemp host "deb-extract" (path_parent install_path) i.

(** An archive is unpacked without error when its extraction succeeds and
    [dpkg-deb --show] answers. *)
Definition archive_ok (host : Host) (install_path : string) (i : nat)
    (deb : string) : Prop :=
  process_ok host (extract_command deb (scratch_dir host install_path i)) = true ∧
  is_Some (check_output host (show_command deb)).

(** The events of the turn in which an archive fails. *)
Definition failed_turn (host : Host) (install_path : string) (i : nat)
    (deb : string) (t : list event) : Prop :=
  let d := scratch_dir host install_path i in
  t = [TempDirEnter d; ProcessRun (extract_command deb d) []; TempDirExit d] ∨
  t = [TempDirEnter d; ProcessRun (extract_command deb d) [];
       CheckOutput (show_command deb); TempDirExit d].

(** Every run of the loop unpacks a first part of the archives in full;
    it then either is at the end, or fails in the next archive. *)
Lemma unpack_stage_packages_loop_shape host install_path debs n pkg_path :
  ∃ j tail,
    (unpack_stage_packages_loop host install_path debs n pkg_path).1 =
      unpack_all host install_path (take j debs) n ++ tail ∧
    (∀ i deb, (i < j)%nat → debs !! i = Some deb →
              archive_ok host install_path (n + i) deb) ∧
    ((j = List.length debs ∧ tail = [] ∧
      ∃ r, (unpack_stage_packages_loop host install_path debs n pkg_path).2 =
             Return r) ∨
     (∃ deb, debs !! j = Some deb ∧
             ¬ archive_ok host install_path (n + j) deb ∧
             failed_turn host install_path (n + j) deb tail ∧
             (unpack_stage_packages_loop host install_path debs n pkg_path).2 =
               Throw (UnpackError deb))).
Proof.
  revert n pkg_path. induction debs as [|deb debs IH]; intros n pkg_path.
  { exists 0, []. split; [done|]. split; [intros; lia|]. left.
    split; [done|]. split; [done|]. by eexists. }
  rewrite unpack_stage_packages_loop_cons, unpack_body_run. cbv zeta.
  fold (scratch_dir host install_path n).
  destruct (process_ok host (extract_command deb (scratch_dir host install_path n)))
    eqn:Hx;
    [destruct (check_output host (show_command deb)) as [out|] eqn:Hs|].
  - destruct (IH (S n) (Some deb)) as (j & tail & Htr & Hok & Hend).
    exists (S j), tail. unfold bind. cbn [fst snd]. split; [|split].
    + rewrite Htr. cbn [take unpack_all]. by rewrite <-app_assoc.
    + intros [|i] deb' Hi Hdeb; simpl in Hdeb.
      * injection Hdeb as <-. rewrite Nat.add_0_r. split; [done|].
        rewrite Hs. by eexists.
      * replace (n + S i) with (S n + i) by lia. apply Hok; [lia|done].
    + destruct Hend as [(-> & -> & r & Hr)|(deb' & Hdeb & Hno & Hfail & Hr)].
      * left. split; [done|]. split; [done|]. by exists r.
      * right. exists deb'. replace (n + S j) with (S n + j) by lia.
        by repeat split.
  - exists 0, [TempDirEnter (scratch_dir host install_path n);
               ProcessRun (extract_command deb (scratch_dir host install_path n)) [];
               CheckOutput (show_command deb);
               TempDirExit (scratch_dir host install_path n)].
    unfold bind. cbn [fst snd]. split; [done|]. split; [intros; lia|].
    right. exists deb. rewrite Nat.add_0_r. split; [done|]. split; [|split].
    + intros [_ [out Hout]]. congruence.
    + by right.
    + done.
  - exists 0, [TempDirEnter (scratch_dir host install_path n);
               ProcessRun (extract_command deb (scratch_dir host install_path n)) [];
               TempDirExit (scratch_dir host install_path n)].
    unfold bind. cbn [fst snd]. split; [done|]. split; [intros; lia|].
    right. exists deb. rewrite Nat.add_0_r. split; [done|]. split; [|split].
    + intros [Hok _]. congruence.
    + by left.
    + done.
Qed.

(** The same for the whole method. *)
Lemma unpack_stage_packages_shape
    (host : Host) (stage_packages_path install_path : string) :
  let debs := glob_deb host stage_packages_path in
  let c := unpack_stage_packages host stage_packages_path install_path in
  ∃ j tail,
    trace c = unpack_all host install_path (take j debs) 0 ++ tail ∧
    (∀ i deb, (i < j)%nat → debs !! i = Some deb →
              archive_ok host install_path i deb) ∧
    ((j = List.length debs ∧ outcome_of c = Return tt ∧
      tail = if decide (debs = []) then [] else [Normalize install_path]) ∨
     (∃ deb, debs !! j = Some deb ∧ ¬ archive_ok host install_path j deb ∧
             failed_turn host install_path j deb tail ∧
             outcome_of c = Throw (UnpackError deb))).
Proof.
  cbv zeta. unfold trace, outcome_of, unpack_stage_packages, mbind, M_bind.
  destruct (unpack_stage_packages_loop_shape host install_path
              (glob_deb host stage_packages_path) 0 None)
    as (j & tail & Htr & Hok & Hend).
  generalize dependent (glob_deb host stage_packages_path). intros debs.
  intros Htr Hok Hend.
  destruct Hend as [(-> & -> & r & Hr)|(deb & Hdeb & Hno & Hfail & Hr)].
  - pose proof (unpack_stage_packages_loop_Return _ _ _ _ _ _ Hr) as [_ ->].
    exists (List.length debs).
    exists (if decide (debs = []) then [] else [Normalize install_path]).
    unfold bind. rewrite Hr, Htr. cbn [fst snd]. rewrite app_nil_r.
    destruct (last debs) as [deb|] eqn:Hlast; cbn [emit mret M_ret ret fst snd].
    + assert (debs ≠ []) by (by intros ->).
      rewrite decide_False by done. split; [done|]. split; [done|]. by left.
    + apply last_None in Hlast as ->. rewrite decide_True by done.
      split; [done|]. split; [done|]. by left.
  - exists j, tail. unfold bind. rewrite Hr. cbn [fst snd].
    split; [done|]. split; [done|]. right. by exists deb.
Qed.

(** X11. [unpack_stage_packages] ends normally only if, for every
    archive of the stage directory, the extraction succeeded and
    [dpkg-deb --show] answered: one failing archive is enough to make the
    whole call fail. *)
Theorem unpack_stage_packages_returns_only_if
    (host : Host) (stage_packages_path install_path : string) :
  outcome_of (unpack_stage_packages host stage_packages_path install_path) =
    Return tt →
  ∀ i deb, glob_deb host stage_packages_path !! i = Some deb →
           archive_ok host install_path i deb.
Proof.
  destruct (unpack_stage_packages_shape host stage_packages_path install_path)
    as (j & tail & _ & Hok & [(-> & Hret & _)|(deb & Hdeb & Hno & _ & Hr)]).
  - intros _ i deb Hdeb. apply Hok; [|done].
    by apply lookup_lt_Some in Hdeb.
  - by rewrite Hr.
Qed.



(** The scratch directories entered and left in a trace. *)
Definition temp_events (t : list event) : list event :=
  List.filter
    (λ e, match e with TempDirEnter _ | TempDirExit _ => true | _ => false end) t.

Lemma temp_events_unpack_all host install_path debs n :
  temp_events (unpack_all host install_path debs n) =
    (i ← seq n (List.length debs);
     [TempDirEnter (scratch_dir host install_path i);
      TempDirExit (scratch_dir host install_path i)]).
Proof.
  revert n. induction debs as [|deb debs IH]; intros n; [done|].
  cbn [unpack_all List.length seq]. unfold temp_events.
  rewrite List.filter_app. fold (temp_events (unpack_all host install_path debs (S n))).
  rewrite IH, bind_cons. done.
Qed.

(** X13. In every run of [unpack_stage_packages], failed or not, each
    scratch directory that is created is removed again before the next
    one is created: the directories are entered and left strictly one
    after the other, one per archive handled. *)
Theorem unpack_stage_packages_cleans_scratch_dirs
    (host : Host) (stage_packages_path install_path : string) :
  ∃ k, (k ≤ List.length (glob_deb host stage_packages_path))%nat ∧
    temp_events
      (trace (unpack_stage_packages host stage_packages_path install_path)) =
    (i ← seq 0 k;
     [TempDirEnter (scratch_dir host install_path i);
      TempDirExit (scratch_dir host install_path i)]).
Proof.
  destruct (unpack_stage_packages_shape host stage_packages_path install_path)
    as (j & tail & -> & _ & Hend).
  unfold temp_events. rewrite List.filter_app.
  fold (temp_events (unpack_all host install_path
                       (take j (glob_deb host stage_packages_path)) 0)).
  rewrite temp_events_unpack_all.
  destruct Hend as [(-> & _ & ->)|(deb & Hdeb & _ & Hfail & _)].
  - exists (List.length (glob_deb host stage_packages_path)). split; [done|].
    rewrite firstn_all. by destruct (decide _); rewrite app_nil_r.
  - apply lookup_lt_Some in Hdeb. exists (S j). split; [lia|].
    rewrite length_take_le by lia. rewrite seq_S, bind_app. f_equal.
    by destruct Hfail as [->| ->].
Qed.

(** Whether every merge into the install tree comes directly after the
    tagging of the same scratch directory; [prev] is the event before. *)
Fixpoint tagged_before_merge (prev : option event) (t : list event) : bool :=
  match t with
  | [] => true
  | e :: t =>
      match e with
      | LinkOrCopyTree d _ =>
          match prev with
          | Some (MarkOriginStagePackage d' _) => String.eqb d d'
          | _ => false
          end
      | _ => true
      end && tagged_before_merge (Some e) t
  end.

Lemma tagged_before_merge_unpack_all host install_path debs n prev tail :
  (∀ prev', tagged_before_merge prev' tail = true) →
  tagged_before_merge prev (unpack_all host install_path debs n ++ tail) = true.
Proof.
  intros Htail. revert n prev.
  induction debs as [|deb debs IH]; intros n prev; [apply Htail|].
  cbn [unpack_all]. rewrite <-app_assoc. unfold unpack_one.
  cbn [app tagged_before_merge andb]. by rewrite String.eqb_refl, IH.
Qed.

(** X14. In every run of [unpack_stage_packages], also one that fails
    later, files are merged into the install tree only directly after
    the scratch directory they come from was tagged with its package. *)
Theorem unpack_stage_packages_tags_before_merging
    (host : Host) (stage_packages_path install_path : string) :
  tagged_before_merge None
    (trace (unpack_stage_packages host stage_packages_path install_path)) = true.
Proof.
  destruct (unpack_stage_packages_shape host stage_packages_path install_path)
    as (j & tail & -> & _ & Hend).
  apply tagged_before_merge_unpack_all. intros prev.
  destruct Hend as [(_ & _ & ->)|(deb & _ & _ & [->| ->] & _)];
    [by destruct (decide _)|done..].
Qed.

(** X15. [unpack_stage_packages] only handles the entries of the stage
    directory whose name ends in [.deb]: every command it runs is the
    extraction of, or the query about, such an entry. *)
Theorem unpack_stage_packages_only_deb_entries
    (host : Host) (stage_packages_path install_path : string) :
  Forall
    (λ e, ∀ cmd,
       e = CheckOutput cmd ∨ (∃ env, e = ProcessRun cmd env) →
       ∃ entry, entry ∈ iterdir host stage_packages_path ∧
                endswith entry ".deb" = true ∧
                (cmd = show_command (path_div stage_packages_path entry) ∨
                 ∃ d, cmd = extract_command (path_div stage_packages_path entry) d))
    (trace (unpack_stage_packages host stage_packages_path install_path)).
Proof.
  destruct (unpack_stage_packages_shape host stage_packages_path install_path)
    as (j & tail & -> & _ & Hend).
  assert (Hentry : ∀ deb, deb ∈ glob_deb host stage_packages_path →
            ∃ entry, entry ∈ iterdir host stage_packages_path ∧
                     endswith entry ".deb" = true ∧
                     deb = path_div stage_packages_path entry).
  { intros deb (entry & -> & Hin)%list_elem_of_fmap.
    apply list_elem_of_In, filter_In in Hin as [Hin Hdeb].
    exists entry. by rewrite list_elem_of_In. }
  assert (Hall : ∀ debs n,
            (∀ deb, deb ∈ debs → deb ∈ glob_deb host stage_packages_path) →
            Forall
              (λ e, ∀ cmd,
                 e = CheckOutput cmd ∨ (∃ env, e = ProcessRun cmd env) →
                 ∃ entry, entry ∈ iterdir host stage_packages_path ∧
                          endswith entry ".deb" = true ∧
                          (cmd = show_command (path_div stage_packages_path entry) ∨
                           ∃ d, cmd = extract_command
                                        (path_div stage_packages_path entry) d))
              (unpack_all host install_path debs n)).
  { induction debs as [|deb debs IH]; intros n Hsub; [constructor|].
    cbn [unpack_all]. rewrite Forall_app. split.
    - destruct (Hentry deb) as (entry & Hin & Hdeb & ->).
      { apply Hsub. by left. }
      unfold unpack_one. repeat constructor;
        intros cmd [Heq|[env Heq]]; try discriminate Heq;
        injection Heq as <-; exists entry; eauto 10.
    - apply IH. intros deb' Hin. apply Hsub. by right. }
  rewrite Forall_app. split.
  - apply Hall. intros deb (i & Hi & _)%elem_of_take.
    by apply list_elem_of_lookup_2 in Hi.
  - destruct Hend as [(_ & _ & ->)|(deb & Hdeb & _ & Hfail & _)].
    + destruct (decide _); repeat constructor.
      intros cmd [Heq|[env Heq]]; discriminate Heq.
    + destruct (Hentry deb) as (entry & Hin & Hd & ->).
      { by apply list_elem_of_lookup_2 in Hdeb. }
      destruct Hfail as [->| ->]; repeat constructor;
        intros cmd [Heq|[env Heq]]; try discriminate Heq;
        injection Heq as <-; exists entry; eauto 10.
Qed.


End DebExtras.

(** * Properties of the dpkg queries *)
Module DpkgProofs.
Import Py Eff Dpkg.

Lemma filter_head {A} (f : A → bool) (l : list A) (x : A) (r : list A) :
  List.filter f l = x :: r →
  ∃ l1 l2, l = l1 ++ x :: l2 ∧ Forall (λ y, f y = false) l1 ∧ f x = true.
Proof.
  induction l as [|y l IH]; simpl; [done|].
  destruct (f y) eqn:Hy.
  - intros [= -> _]. exists [], l. by repeat split; try constructor.
  - intros (l1 & l2 & -> & Hl1 & Hx)%IH. exists (y :: l1), l2.
    split; [done|]. split; [by constructor|done].
Qed.

Lemma filter_nil_Forall {A} (f : A → bool) (l : list A) :
  List.filter f l = [] ↔ Forall (λ y, f y = false) l.
Proof.
  induction l as [|y l IH]; simpl; [by split; [constructor|]|].
  rewrite Forall_cons. destruct (f y); [|by rewrite IH; tauto].
  split; [done|]. by intros [? _].
Qed.

Lemma before_spec (sep : ascii) (s : string) :
  String.prefix (before sep s) s = true ∧
  ¬ In sep (list_ascii_of_string (before sep s)).
Proof.
  induction s as [|c s [IHp IHn]]; simpl; [by split; [|intros []]|].
  destruct (Ascii.eqb_spec c sep) as [->|Hne]; simpl.
  - split; [done|]. by intros [].
  - rewrite IHp. split; [by destruct (ascii_dec c c)|].
    intros [Heq|Hin]; [by destruct Hne|by apply IHn].
Qed.

(** X16. When [_run_dpkg_query_search] finds a package, the name it
    returns is what precedes the first colon of the first line of the
    output of [dpkg-query -S] that does not start with "diversion"; the
    name contains no colon. *)
Theorem run_dpkg_query_search_answer
    (host : Host) (file_path package : string) :
  (_run_dpkg_query_search_body host file_path).2 = Answer package →
  ∃ raw diversions line rest,
    check_output host ["dpkg-query"; "-S"; join_sep file_path] = Some raw ∧
    splitlines (strip raw) = diversions ++ line :: rest ∧
    Forall (λ l, startswith l "diversion" = true) diversions ∧
    startswith line "diversion" = false ∧
    package = before ":" line ∧
    String.prefix package line = true ∧
    ¬ In ":"%char (list_ascii_of_string package).
Proof.
  unfold _run_dpkg_query_search_body, search_command.
  destruct (check_output host _) as [raw|] eqn:Hraw; [|done].
  cbv zeta.
  destruct (List.filter _ (splitlines (strip raw))) as [|line ?] eqn:Hf; [done|].
  cbn [snd]. intros [= <-].
  apply filter_head in Hf as (divs & rest & Hlines & Hdivs & Hline).
  exists raw, divs, line, rest. split; [done|]. split; [done|]. split.
  - eapply Forall_impl; [exact Hdivs|]. intros ln; simpl. by destruct (startswith ln "diversion").
  - split; [by destruct (startswith line _)|]. split; [done|].
    apply before_spec.
Qed.

(** X17. [_run_dpkg_query_search] fails in two ways only: with the
    typed [FileProviderNotFound] of the path exactly when [dpkg-query]
    exits with an error, and with the [IndexError] of an empty selection
    exactly when every line of the output is a diversion (or there is no
    line).  The error of the subprocess itself never gets out. *)
Theorem run_dpkg_query_search_failures (host : Host) (file_path : string) :
  let r := (_run_dpkg_query_search_body host file_path).2 in
  (r = Fails (FileProviderNotFound file_path) ↔
   check_output host (search_command file_path) = None) ∧
  (r = Fails NoLine ↔
   ∃ raw, check_output host (search_command file_path) = Some raw ∧
          Forall (λ l, startswith l "diversion" = true) (splitlines (strip raw))) ∧
  (∀ f, r = Fails f → f = FileProviderNotFound file_path ∨ f = NoLine).
Proof.
  cbv zeta. unfold _run_dpkg_query_search_body.
  destruct (check_output host _) as [raw|] eqn:Hraw; cbv zeta.
  - destruct (List.filter _ (splitlines (strip raw))) as [|line ?] eqn:Hf;
      cbn [snd].
    + split; [done|]. split; [|intros f [= <-]; by right].
      split; [|done]. intros _. exists raw. split; [done|].
      apply filter_nil_Forall in Hf. eapply Forall_impl; [exact Hf|].
      intros ln; simpl. by destruct (startswith ln "diversion").
    + split; [done|]. split; [|done]. split; [done|].
      intros (raw' & [= <-] & Hall). exfalso.
      apply filter_head in Hf as (divs & rest & Hlines & _ & Hline).
      rewrite Hlines in Hall. apply Forall_app in Hall as [_ Hall].
      apply Forall_cons in Hall as [Hl _]. by rewrite Hl in Hline.
  - cbn [snd]. split; [done|]. split; [|intros f [= <-]; by left].
    split; [done|]. by intros (raw & [=] & _).
Qed.

(** X18. [_run_dpkg_query_list_files] returns, of the white space
    separated words that [dpkg -L] prints, exactly those that contain
    "lib" and name an existing file.  It does not catch the failure of
    [dpkg -L]: the error of the subprocess gets out untyped. *)
Theorem run_dpkg_query_list_files_spec
    (host : Host) (isfile : string → bool) (package_name : string) :
  match check_output host ["dpkg"; "-L"; package_name] with
  | Some raw =>
      ∃ libs : gset string,
        (_run_dpkg_query_list_files_body host isfile package_name).2 = Answer libs ∧
        ∀ i, i ∈ libs ↔
             i ∈ split (strip raw) ∧ substring_in "lib" i = true ∧ isfile i = true
  | None =>
      (_run_dpkg_query_list_files_body host isfile package_name).2 =
        Fails (ProcessError ["dpkg"; "-L"; package_name])
  end.
Proof.
  unfold _run_dpkg_query_list_files_body, list_files_command.
  destruct (check_output host _) as [raw|]; [|done]. cbv zeta.
  eexists. split; [reflexivity|]. intros i.
  rewrite elem_of_list_to_set, list_elem_of_In, filter_In, <-list_elem_of_In.
  by rewrite andb_true_iff.
Qed.

(** ** The memoization *)
Section lru.
Context {V : Type}.
Variable maxsize : nat.
Variable body : string → list event * answer V.

Lemma cache_get_remove (cache : list (string * V)) (key k : string) :
  cache_get (cache_remove cache key) k =
    if String.eqb key k then None else cache_get cache k.
Proof.
  induction cache as [|[k' v'] cache IH]; simpl; [by destruct (_ =? _)%string|].
  destruct (String.eqb_spec k' key) as [->|Hne]; [|simpl].
  - rewrite IH. destruct (String.eqb_spec key k) as [->|?]; done.
  - rewrite IH. destruct (String.eqb_spec key k) as [->|?]; [|done].
    by destruct (String.eqb_spec k' k).
Qed.

Lemma cache_remove_absent (cache : list (string * V)) (key : string) :
  cache_get cache key = None → cache_remove cache key = cache.
Proof.
  induction cache as [|[k' v'] cache IH]; simpl; [done|].
  destruct (String.eqb k' key); [done|]. intros H. by rewrite IH.
Qed.

Lemma cache_get_take (cache : list (string * V)) (m : nat) (k : string) (v : V) :
  cache_get (take m cache) k = Some v → cache_get cache k = Some v.
Proof.
  revert m. induction cache as [|[k' v'] cache IH]; intros [|m]; simpl; try done.
  destruct (String.eqb k' k); [done|]. apply IH.
Qed.

Lemma cache_get_take_None (cache : list (string * V)) (m : nat) (k : string) :
  cache_get cache k = None → cache_get (take m cache) k = None.
Proof.
  intros Hn. destruct (cache_get (take m cache) k) as [v|] eqn:Hg; [|done].
  apply cache_get_take in Hg. congruence.
Qed.

Lemma length_cache_remove (cache : list (string * V)) (key : string) :
  (List.length (cache_remove cache key) ≤ List.length cache)%nat ∧
  (is_Some (cache_get cache key) →
   (S (List.length (cache_remove cache key)) ≤ List.length cache)%nat).
Proof.
  induction cache as [|[k' v'] cache [IH1 IH2]]; simpl.
  { split; [done|]. by intros [? [=]]. }
  destruct (String.eqb k' key); simpl.
  - split; [lia|]. intros _. lia.
  - split; [lia|]. intros Hs. apply IH2 in Hs. lia.
Qed.

(** A call that returns a value leaves a cache from which the same call
    is answered without calling the function, and which that second call
    does not change. *)
Lemma lru_cache_repeat (cache : list (string * V)) (key : string) (v : V) :
  (0 < maxsize)%nat →
  (lru_cache maxsize body cache key).1.2 = Answer v →
  let cache' := (lru_cache maxsize body cache key).2 in
  lru_cache maxsize body cache' key = ([], Answer v, cache').
Proof.
  intros Hmax. unfold lru_cache at 1 2.
  destruct (cache_get cache key) as [v0|] eqn:Hget; cbn [fst snd].
  - intros [= ->]. cbv zeta. unfold lru_cache. simpl.
    rewrite !String.eqb_refl.
    rewrite cache_remove_absent; [done|].
    by rewrite cache_get_remove, String.eqb_refl.
  - destruct (body key) as [t [v0|f]]; cbn [fst snd]; [|done].
    intros [= ->]. cbv zeta. destruct maxsize as [|m]; [lia|].
    unfold lru_cache. simpl. rewrite !String.eqb_refl.
    rewrite cache_remove_absent; [done|]. by apply cache_get_take_None.
Qed.

(** The cache never grows beyond its bound. *)
Lemma lru_cache_bounded (cache : list (string * V)) (key : string) :
  (List.length cache ≤ maxsize)%nat →
  (List.length (lru_cache maxsize body cache key).2 ≤ maxsize)%nat.
Proof.
  intros Hlen. unfold lru_cache.
  destruct (cache_get cache key) as [v0|] eqn:Hget; cbn [snd].
  - simpl. destruct (length_cache_remove cache key) as [_ Hrem].
    specialize (Hrem ltac:(by eexists)). lia.
  - destruct (body key) as [t [v0|f]]; cbn [snd]; [|done].
    rewrite length_take. lia.
Qed.

(** The remembered answers are answers of the function. *)
Definition coherent (cache : list (string * V)) : Prop :=
  ∀ k v, cache_get cache k = Some v → (body k).2 = Answer v.

(** On a cache of genuine answers the decorated function ends as the
    function itself does, and the cache stays one of genuine answers. *)
Lemma lru_cache_coherent (cache : list (string * V)) (key : string) :
  coherent cache →
  (lru_cache maxsize body cache key).1.2 = (body key).2 ∧
  coherent (lru_cache maxsize body cache key).2.
Proof.
  intros Hco. unfold lru_cache.
  destruct (cache_get cache key) as [v0|] eqn:Hget; cbn [fst snd].
  - split; [symmetry; by apply Hco|].
    intros k v. simpl. destruct (String.eqb_spec key k) as [->|Hne].
    + intros [= <-]. by apply Hco.
    + rewrite cache_get_remove. destruct (String.eqb_spec key k); [done|].
      apply Hco.
  - destruct (body key) as [t [v0|f]] eqn:Hbody; cbn [fst snd]; [|done].
    split; [done|]. intros k v Hk. apply cache_get_take in Hk. revert Hk.
    simpl. destruct (String.eqb_spec key k) as [->|Hne].
    + intros [= <-]. by rewrite Hbody.
    + apply Hco.
Qed.

(** A call that fails is not remembered: the cache is unchanged and the
    function was called. *)
Lemma lru_cache_failure (cache : list (string * V)) (key : string) (f : failure) :
  (lru_cache maxsize body cache key).1.2 = Fails f →
  lru_cache maxsize body cache key = ((body key).1, Fails f, cache).
Proof.
  unfold lru_cache. destruct (cache_get cache key) as [v0|]; [done|].
  destruct (body key) as [t [v0|f']]; cbn [fst snd]; [done|]. by intros [= ->].
Qed.

Lemma cache_get_None (cache : list (string * V)) (k : string) :
  cache_get cache k = None ↔ k ∉ cache.*1.
Proof.
  induction cache as [|[k' v'] cache IH]; simpl.
  { split; [intros _; apply not_elem_of_nil|done]. }
  rewrite not_elem_of_cons.
  destruct (String.eqb_spec k' k) as [->|Hne].
  - split; [done|]. by intros [? _].
  - rewrite IH. split; [by intros ?; split|by intros [_ ?]].
Qed.

Lemma cache_remove_sublist (cache : list (string * V)) (key : string) :
  cache_remove cache key `sublist_of` cache.
Proof.
  induction cache as [|[k' v'] cache IH]; simpl; [done|].
  destruct (String.eqb k' key); [by apply sublist_cons|by apply sublist_skip].
Qed.

(** An answer that a cut of the cache to [m] entries loses, when the
    cache had at most one entry more, was its last one. *)
Lemma cache_get_take_lost (cache : list (string * V)) (m : nat) (k : string) (v : V) :
  cache_get cache k = Some v →
  cache_get (take m cache) k = None →
  (List.length cache ≤ S m)%nat →
  List.length cache = S m ∧ last cache.*1 = Some k.
Proof.
  revert m. induction cache as [|[k' v'] cache IH]; intros m; [done|].
  destruct m as [|m]; simpl.
  - destruct cache; simpl; [|lia].
    destruct (String.eqb_spec k' k) as [->|]; [done|done].
  - destruct (String.eqb_spec k' k) as [->|Hne]; [done|].
    intros Hget Hlost Hlen. destruct (IH m Hget Hlost) as [Hl Hlast]; [lia|].
    split; [lia|]. destruct cache as [|[k2 v2] cache]; [done|].
    by rewrite fmap_cons, last_cons_cons.
Qed.

(** The cache keeps one entry per key and stays within its bound, and a
    call loses a remembered answer only by evicting the least recently
    used entry of a full cache on a miss. *)
Lemma lru_cache_invariant (cache : list (string * V)) (key : string) :
  (0 < maxsize)%nat →
  NoDup cache.*1 →
  (List.length cache ≤ maxsize)%nat →
  let cache' := (lru_cache maxsize body cache key).2 in
  NoDup cache'.*1 ∧
  (List.length cache' ≤ maxsize)%nat ∧
  ∀ k v, cache_get cache k = Some v →
         cache_get cache' k = Some v ∨
         (List.length cache = maxsize ∧ last cache.*1 = Some k ∧
          cache_get cache key = None).
Proof.
  intros Hmax Hnd Hlen. cbv zeta.
  split; [|split; [by apply lru_cache_bounded|]].
  - unfold lru_cache.
    destruct (cache_get cache key) as [v0|] eqn:Hget; cbn [snd].
    + rewrite fmap_cons. apply NoDup_cons. split.
      * apply cache_get_None. by rewrite cache_get_remove, String.eqb_refl.
      * apply (sublist_NoDup _ _ Hnd).
        apply fmap_sublist, cache_remove_sublist.
    + destruct (body key) as [t [v0|f]]; cbn [snd]; [|done].
      destruct maxsize as [|m]; [lia|]. cbn [take]. rewrite fmap_cons.
      apply NoDup_cons. split.
      * apply cache_get_None, cache_get_take_None. done.
      * apply (sublist_NoDup _ _ Hnd). apply fmap_sublist, sublist_take.
  - intros k v Hk. unfold lru_cache.
    destruct (cache_get cache key) as [v0|] eqn:Hget; cbn [snd].
    + left. simpl. destruct (String.eqb_spec key k) as [->|Hne]; [congruence|].
      rewrite cache_get_remove. by destruct (String.eqb_spec key k).
    + destruct (body key) as [t [v0|f]]; cbn [snd]; [|by left].
      destruct maxsize as [|m]; [lia|]. cbn [take]. simpl.
      destruct (String.eqb_spec key k) as [->|Hne]; [congruence|].
      destruct (cache_get (take m cache) k) as [v'|] eqn:Htake.
      * left. apply cache_get_take in Htake. congruence.
      * right. destruct (cache_get_take_lost cache m k v Hk Htake Hlen).
        done.
Qed.

End lru.

(** X19. A query of [_run_dpkg_query_search] that found a package is
    remembered: asking again for the same path right away runs no
    [dpkg-query], gives the same package and leaves the cache as it is. *)
Theorem run_dpkg_query_search_memoized
    (host : Host) (cache : list (string * string)) (file_path package : string) :
  (_run_dpkg_query_search host cache file_path).1.2 = Answer package →
  let cache' := (_run_dpkg_query_search host cache file_path).2 in
  _run_dpkg_query_search host cache' file_path = ([], Answer package, cache').
Proof. apply lru_cache_repeat. lia. Qed.

(** X20. The cache of [_run_dpkg_query_search] keeps one entry per path
    and never holds more than 256 of them; a call loses a remembered
    answer only when it is a miss on a full cache, and then only the
    least recently used one. *)
Theorem run_dpkg_query_search_cache_invariant
    (host : Host) (cache : list (string * string)) (file_path : string) :
  NoDup cache.*1 →
  (List.length cache ≤ 256)%nat →
  let cache' := (_run_dpkg_query_search host cache file_path).2 in
  NoDup cache'.*1 ∧
  (List.length cache' ≤ 256)%nat ∧
  ∀ k v, cache_get cache k = Some v →
         cache_get cache' k = Some v ∨
         (List.length cache = 256 ∧ last cache.*1 = Some k ∧
          cache_get cache file_path = None).
Proof. apply lru_cache_invariant. lia. Qed.

(** X21. As long as the cache holds answers that [dpkg-query] gives on
    this host, the memoized search ends exactly as the search itself
    would, and the cache keeps holding such answers. *)
Theorem run_dpkg_query_search_coherent
    (host : Host) (cache : list (string * string)) (file_path : string) :
  coherent (_run_dpkg_query_search_body host) cache →
  (_run_dpkg_query_search host cache file_path).1.2 =
    (_run_dpkg_query_search_body host file_path).2 ∧
  coherent (_run_dpkg_query_search_body host)
    (_run_dpkg_query_search host cache file_path).2.
Proof. apply lru_cache_coherent. Qed.

(** X22. A failed search is not remembered: the cache is unchanged and
    [dpkg-query] was run, so asking again runs it again. *)
Theorem run_dpkg_query_search_failure_not_cached
    (host : Host) (cache : list (string * string)) (file_path : string)
    (f : failure) :
  (_run_dpkg_query_search host cache file_path).1.2 = Fails f →
  (_run_dpkg_query_search host cache file_path).2 = cache ∧
  CheckOutput (search_command file_path) ∈
    (_run_dpkg_query_search host cache file_path).1.1 ∧
  _run_dpkg_query_search host
    (_run_dpkg_query_search host cache file_path).2 file_path =
  _run_dpkg_query_search host cache file_path.
Proof.
  intros Hf. unfold _run_dpkg_query_search in *.
  rewrite (lru_cache_failure _ _ _ _ _ Hf). cbn [fst snd].
  split; [done|]. split; [|by rewrite (lru_cache_failure _ _ _ _ _ Hf)].
  unfold _run_dpkg_query_search_body.
  destruct (check_output host _); cbv zeta;
    [destruct (List.filter _ _)|]; cbn [fst]; rewrite !elem_of_cons; auto.
Qed.

(** A host on which [/bin/sh] is diverted by dash and nothing is known
    about [/nowhere]. *)
Definition dash_host : Host :=
  {| read_lines := read_lines DebProofs.quiet_host;
     iterdir := iterdir DebProofs.quiet_host;
     get_installed_version := get_installed_version DebProofs.quiet_host;
     mark_packages_fails := mark_packages_fails DebProofs.quiet_host;
     get_packages_marked_for_installation :=
       get_packages_marked_for_installation DebProofs.quiet_host;
     fetch_archives := fetch_archives DebProofs.quiet_host;
     process_ok := process_ok DebProofs.quiet_host;
     check_output := λ cmd,
       match cmd with
       | ["dpkg-query"; "-S"; "/bin/sh"] =>
           Some ("diversion by dash from: /bin/sh" +:+ LF +:+
                 "diversion by dash to: /bin/sh.distrib" +:+ LF +:+
                 "dash: /bin/sh" +:+ LF)
       | _ => None
       end;
     mkdir_ok := mkdir_ok DebProofs.quiet_host;
     mkdtemp := mkdtemp DebProofs.quiet_host |}.

Lemma run_dpkg_query_search_answer_witness :
  ∃ raw diversions line rest,
    check_output dash_host ["dpkg-query"; "-S"; join_sep "bin/sh"] = Some raw ∧
    splitlines (strip raw) = diversions ++ line :: rest ∧
    Forall (λ l, startswith l "diversion" = true) diversions ∧
    startswith line "diversion" = false ∧
    "dash" = before ":" line ∧
    String.prefix "dash" line = true ∧
    ¬ In ":"%char (list_ascii_of_string "dash").
Proof.
  apply (run_dpkg_query_search_answer dash_host "bin/sh" "dash").
  vm_compute. reflexivity.
Defined.

Lemma run_dpkg_query_search_memoized_witness :
  _run_dpkg_query_search dash_host [("bin/sh", "dash")] "bin/sh" =
    ([], Answer "dash", [("bin/sh", "dash")]).
Proof.
  apply (run_dpkg_query_search_memoized dash_host [] "bin/sh" "dash").
  vm_compute. reflexivity.
Defined.

(** A full cache: 256 remembered paths, the one-character strings. *)
Definition full_cache : list (string * string) :=
  (λ i, (String (ascii_of_nat i) "", "pkg")) <$> seq 0 256.

Lemma full_cache_keys : NoDup full_cache.*1.
Proof.
  apply (bool_decide_unpack (NoDup full_cache.*1)). vm_compute. exact I.
Qed.

Lemma full_cache_length : List.length full_cache = 256.
Proof. vm_compute. reflexivity. Qed.

(** On the full cache a new path is a miss: its answer is remembered, the
    bound holds and only the least recently used path is forgotten. *)
Lemma run_dpkg_query_search_cache_invariant_witness :
  let cache' := (_run_dpkg_query_search dash_host full_cache "bin/sh").2 in
  (NoDup cache'.*1 ∧
   (List.length cache' ≤ 256)%nat ∧
   ∀ k v, cache_get full_cache k = Some v →
          cache_get cache' k = Some v ∨
          (List.length full_cache = 256 ∧ last full_cache.*1 = Some k ∧
           cache_get full_cache "bin/sh" = None)) ∧
  cache_get cache' "bin/sh" = Some "dash" ∧
  List.length cache' = 256 ∧
  cache_get cache' (String (ascii_of_nat 255) "") = None.
Proof.
  cbv zeta. split.
  - apply (run_dpkg_query_search_cache_invariant dash_host full_cache "bin/sh").
    + exact full_cache_keys.
    + rewrite full_cache_length. lia.
  - vm_compute. repeat split.
Defined.

Lemma run_dpkg_query_search_coherent_witness :
  (_run_dpkg_query_search dash_host [("bin/sh", "dash")] "nowhere").1.2 =
    (_run_dpkg_query_search_body dash_host "nowhere").2 ∧
  coherent (_run_dpkg_query_search_body dash_host)
    (_run_dpkg_query_search dash_host [("bin/sh", "dash")] "nowhere").2.
Proof.
  apply (run_dpkg_query_search_coherent dash_host [("bin/sh", "dash")] "nowhere").
  intros k v. cbn [cache_get].
  destruct (String.eqb_spec "bin/sh" k) as [<-|_]; [|done].
  intros [= <-]. vm_compute. reflexivity.
Defined.

Lemma run_dpkg_query_search_failure_not_cached_witness :
  (_run_dpkg_query_search dash_host [("bin/sh", "dash")] "nowhere").2 =
    [("bin/sh", "dash")] ∧
  CheckOutput (search_command "nowhere") ∈
    (_run_dpkg_query_search dash_host [("bin/sh", "dash")] "nowhere").1.1 ∧
  _run_dpkg_query_search dash_host
    (_run_dpkg_query_search dash_host [("bin/sh", "dash")] "nowhere").2 "nowhere" =
  _run_dpkg_query_search dash_host [("bin/sh", "dash")] "nowhere".
Proof.
  apply (run_dpkg_query_search_failure_not_cached dash_host
           [("bin/sh", "dash")] "nowhere" (FileProviderNotFound "nowhere")).
  vm_compute. reflexivity.
Defined.

End DpkgProofs.

(** * The further properties on concrete hosts *)
Module DebExamples.
Import Py Eff Deb DebProofs DebExtras.

(** The listing of core20 as in [core20_host]; the apt cache fetches two
    archives. *)
Definition fetch_host : Host :=
  {| read_lines := read_lines core20_host;
     iterdir := iterdir quiet_host;
     get_installed_version := get_installed_version quiet_host;
     mark_packages_fails := mark_packages_fails quiet_host;
     get_packages_marked_for_installation :=
       get_packages_marked_for_installation quiet_host;
     fetch_archives := λ _ _ _ _,
       [("libfoo", "2.1", "/c/download/libfoo_2.1_amd64.deb");
        ("libdep", "0.3", "/c/download/libdep_0.3_amd64.deb")];
     process_ok := process_ok quiet_host;
     check_output := check_output quiet_host;
     mkdir_ok := mkdir_ok quiet_host;
     mkdtemp := mkdtemp quiet_host |}.

(** The index knows no package named nosuch. *)
Definition unknown_host : Host :=
  {| read_lines := read_lines quiet_host;
     iterdir := iterdir quiet_host;
     get_installed_version := get_installed_version quiet_host;
     mark_packages_fails := λ _ _, Some "nosuch";
     get_packages_marked_for_installation :=
       get_packages_marked_for_installation quiet_host;
     fetch_archives := fetch_archives quiet_host;
     process_ok := process_ok quiet_host;
     check_output := check_output quiet_host;
     mkdir_ok := mkdir_ok quiet_host;
     mkdtemp := mkdtemp quiet_host |}.

(** A listing whose second line has the installed marker and nothing
    else. *)
Definition malformed_file : list string :=
  ["ii  adduser 3.118ubuntu1 all add and remove users" +:+ LF; "ii " +:+ LF].

Definition malformed_host : Host :=
  {| read_lines := λ p,
       if String.eqb p "/snap/core22/current/usr/share/snappy/dpkg.list"
       then Some malformed_file else None;
     iterdir := iterdir quiet_host;
     get_installed_version := get_installed_version quiet_host;
     mark_packages_fails := mark_packages_fails quiet_host;
     get_packages_marked_for_installation :=
       get_packages_marked_for_installation quiet_host;
     fetch_archives := fetch_archives quiet_host;
     process_ok := process_ok quiet_host;
     check_output := check_output quiet_host;
     mkdir_ok := mkdir_ok quiet_host;
     mkdtemp := mkdtemp quiet_host |}.


Lemma fetch_stage_packages_sorted_nodup_witness :
  Sorted String.le ["libdep=0.3"; "libfoo=2.1"] ∧
  NoDup ["libdep=0.3"; "libfoo=2.1"].
Proof.
  apply (fetch_stage_packages_sorted_nodup spec_from_unparsed fetch_host
           "/c" "/stage" "core20" "amd64" ["libfoo"] false).
  vm_compute. reflexivity.
Defined.

Lemma fetch_stage_packages_stages_the_archives_witness :
  let c := fetch_stage_packages spec_from_unparsed fetch_host "/c" ["libfoo"]
             "/stage" "core20" "amd64" false in
  (∀ x, x ∈ ["libdep=0.3"; "libfoo=2.1"] ↔
        ∃ a, a ∈ [("libfoo", "2.1", "/c/download/libfoo_2.1_amd64.deb");
                  ("libdep", "0.3", "/c/download/libdep_0.3_amd64.deb")] ∧
             x = archive_name_version a) ∧
  (∀ a, a ∈ [("libfoo", "2.1", "/c/download/libfoo_2.1_amd64.deb");
             ("libdep", "0.3", "/c/download/libdep_0.3_amd64.deb")] →
        LinkOrCopy a.2 (path_div "/stage" (path_name a.2)) ∈ trace c) ∧
  AptUnmarkPackages {[ "libbar" ]} ∈ trace c ∧
  AptFetchArchives (path_div "/c" "download") ∈ trace c ∧
  last (trace c) = Some (AptExit (Some (path_div "/c" "stage-packages", "amd64"))).
Proof.
  apply (fetch_stage_packages_stages_the_archives spec_from_unparsed fetch_host
           "/c" "/stage" "core20" "amd64" "libfoo" [] {[ "libbar" ]}
           ["libdep=0.3"; "libfoo=2.1"]);
    vm_compute; reflexivity.
Defined.

Lemma fetch_stage_packages_unknown_package_witness :
  let cfg : apt_cfg := Some (path_div "/c" "stage-packages", "amd64") in
  let c := fetch_stage_packages spec_from_unparsed unknown_host "/c" ["nosuch"]
             "/stage" "core22" "amd64" false in
  outcome_of c = Throw (PackageNotFound "nosuch") ∧
  last (trace c) = Some (AptExit cfg) ∧
  Forall (λ e, match e with
               | AptUnmarkPackages _ | AptFetchArchives _ | AptGetMarked
               | LinkOrCopy _ _ => False
               | _ => True
               end) (trace c).
Proof.
  apply (fetch_stage_packages_unknown_package spec_from_unparsed unknown_host
           "/c" "/stage" "core22" "amd64" "nosuch" [] false ∅ "nosuch");
    [vm_compute; reflexivity | reflexivity | reflexivity].
Defined.

Lemma get_packages_in_base_malformed_listing_witness :
  get_packages_in_base spec_from_unparsed malformed_host "core22" =
    Raise IndexError ∧
  fetch_stage_packages spec_from_unparsed malformed_host "/c" ["libfoo"]
    "/stage" "core22" "amd64" false =
    ([LogDebug "Requested stage-packages: %s" (sorted ["libfoo"])],
     Throw IndexError).
Proof.
  assert (Hm : Exists (λ line, startswith line "ii " = true ∧
                               split line !! 1 = None) malformed_file).
  { apply Exists_cons_tl, Exists_cons_hd. split; reflexivity. }
  destruct (get_packages_in_base_malformed_listing spec_from_unparsed
              malformed_host "core22" malformed_file)
    as (Hiff & _ & Hfetch); [by apply not_legacy | reflexivity |].
  split; [by apply Hiff | by apply Hfetch].
Defined.

Lemma install_build_packages_order_irrelevant_witness :
  install_build_packages spec_get_pkg_name_parts gcc_host ["make"; "gcc"] false =
  install_build_packages spec_get_pkg_name_parts gcc_host ["gcc"; "make"] false.
Proof.
  apply (install_build_packages_order_irrelevant spec_get_pkg_name_parts
           gcc_host ["make"; "gcc"] ["gcc"; "make"] false).
  apply Permutation_swap.
Defined.

Lemma install_build_packages_unknown_package_witness :
  let c := install_build_packages spec_get_pkg_name_parts unknown_host
             ["nosuch"] false in
  outcome_of c = Throw (BuildPackageNotFound "nosuch") ∧
  Forall (λ e, mutates_host e = false) (trace c) ∧
  last (trace c) = Some (AptExit None).
Proof.
  apply (install_build_packages_unknown_package spec_get_pkg_name_parts
           unknown_host "nosuch" [] false "nosuch").
  reflexivity.
Defined.


Lemma unpack_stage_packages_returns_only_if_witness :
  archive_ok stage_host "/parts/p/install" 1 "/stage/libfoo_2.1_amd64.deb".
Proof.
  apply (unpack_stage_packages_returns_only_if stage_host "/stage"
           "/parts/p/install");
    vm_compute; reflexivity.
Defined.



End DebExamples.
